(** * A verification model of the Nomic embedding service (src/app.py)

    The Flask application of [src/app.py] is embedded as functions in a small
    state-and-exception monad over an explicit [World]: the module global
    [model], the wall clock read by [time.time()], the log written through
    [logger], and the trace of calls made to the model's [encode].  Request
    bodies and response bodies are JSON values as Python sees them after
    [request.get_json()] and before [jsonify]. *)

From Stdlib Require Import Floats.PrimFloat.
From Stdlib Require Import ZArith List String Ascii.
From stdpp Require Import gmap list.

Set Warnings "-register-all".
Local Open Scope string_scope.

(** ** Python values *)

(** A Python [str] is a sequence of Unicode code points. *)
Abbreviation pystr := (list N).
Abbreviation float := PrimFloat.float.

(** String literals of the source, as code points. *)
Definition py (s : string) : pystr := map N_of_ascii (list_ascii_of_string s).

(** What [request.get_json()] can produce, and what [jsonify] accepts. *)
Inductive json : Type :=
| JNull
| JBool (b : bool)
| JInt (z : Z)
| JFloat (f : float)
| JStr (s : pystr)
| JArr (l : list json)
| JObj (d : gmap pystr json).

(** [type(v).__name__], as it appears in CPython's error messages. *)
Definition type_name (v : json) : pystr :=
  match v with
  | JNull => py "NoneType"
  | JBool _ => py "bool"
  | JInt _ => py "int"
  | JFloat _ => py "float"
  | JStr _ => py "str"
  | JArr _ => py "list"
  | JObj _ => py "dict"
  end.

(** [bool(v)]: the truth value tested by [not data] and [if text.strip()]. *)
Definition truthy (v : json) : bool :=
  match v with
  | JNull => false
  | JBool b => b
  | JInt z => negb (z =? 0)%Z
  | JFloat f => negb (PrimFloat.eqb f PrimFloat.zero)
  | JStr s => negb (Nat.eqb (length s) 0)
  | JArr l => negb (Nat.eqb (length l) 0)
  | JObj d => negb (Nat.eqb (size d) 0)
  end.

(** [str.isspace] on one code point: the characters [str.strip()] removes. *)
Definition isspace (c : N) : bool :=
  ((0x09 <=? c) && (c <=? 0x0D) || (0x1C <=? c) && (c <=? 0x20)
   || (c =? 0x85) || (c =? 0xA0) || (c =? 0x1680)
   || (0x2000 <=? c) && (c <=? 0x200A)
   || (c =? 0x2028) || (c =? 0x2029) || (c =? 0x202F) || (c =? 0x205F)
   || (c =? 0x3000))%N.

Fixpoint lstrip (s : pystr) : pystr :=
  match s with
  | [] => []
  | c :: s' => if isspace c then lstrip s' else s
  end.

Definition rstrip (s : pystr) : pystr := rev (lstrip (rev s)).

(** [s.strip()] *)
Definition strip (s : pystr) : pystr := rstrip (lstrip s).

(** [sub in s] for two strings: substring search. *)
Fixpoint str_contains (sub s : pystr) : bool :=
  bool_decide (sub `prefix_of` s)
  || match s with
     | [] => false
     | _ :: s' => str_contains sub s'
     end.

(** [key == v] for a string [key] and an arbitrary JSON value. *)
Definition str_eq (key : pystr) (v : json) : bool :=
  match v with
  | JStr s => bool_decide (key = s)
  | _ => false
  end.

(** ** Exceptions *)

Inductive Exn : Type :=
| AttributeError (obj_type attr : pystr)
| TypeError (msg : pystr)
| KeyError (key : pystr)
| ExternalError (msg : pystr).

(** [str(e)] *)
Definition str_exn (e : Exn) : pystr :=
  match e with
  | AttributeError t a =>
      py "'" ++ t ++ py "' object has no attribute '" ++ a ++ py "'"
  | TypeError msg => msg
  | KeyError k => py "'" ++ k ++ py "'"
  | ExternalError msg => msg
  end.

Inductive Outcome (A : Type) : Type :=
| Val (a : A)
| Raise (e : Exn).
Arguments Val {A} a.
Arguments Raise {A} e.

(** ** The model handle *)

(** Keyword arguments of [SentenceTransformer.encode] that the source sets.
    [batch_size] is passed explicitly by the batch endpoint only; the single
    endpoint leaves it at the default of the library's signature. *)
Record EncodeOptions : Type := {
  convert_to_numpy : bool;
  normalize_embeddings : bool;
  batch_size : nat
}.

Definition default_batch_size : nat := 32.

(** The first positional argument of [encode]: one string or a list. *)
Inductive Sentences : Type :=
| One (text : pystr)
| Many (texts : list pystr).

(** The loaded model, an opaque collaborator.  [encode] given a [str]
    returns a one-dimensional array, given a [list] a two-dimensional one;
    either call may raise.  [n_modules] is [len(model)], which decides the
    truth value of the object. *)
Record SentenceTransformer : Type := {
  encode_str : pystr -> EncodeOptions -> Outcome (list float);
  encode_list : list pystr -> EncodeOptions -> Outcome (list (list float));
  n_modules : nat
}.

(** ** The world of the process *)

Inductive LogMessage : Type :=
| Loading_model
| Model_loaded
| Error_loading_model (e : Exn)
| Generated_embedding (text_length : nat) (processing_time : float)
| Generated_embeddings (n : nat) (processing_time : float)
| Error_generating_embedding (e : Exn)
| Error_generating_batch (e : Exn).

Inductive LogLevel : Type := INFO | ERROR.

Record World : Type := {
  model : option SentenceTransformer;
  wall_clock : nat -> float;
  clock_reads : nat;
  log : list (LogLevel * LogMessage);
  encode_calls : list (Sentences * EncodeOptions)
}.

Definition set_model (m : option SentenceTransformer) (w : World) : World :=
  {| model := m; wall_clock := wall_clock w; clock_reads := clock_reads w;
     log := log w; encode_calls := encode_calls w |}.

Definition tick (w : World) : World :=
  {| model := model w; wall_clock := wall_clock w;
     clock_reads := S (clock_reads w);
     log := log w; encode_calls := encode_calls w |}.

Definition add_log (r : LogLevel * LogMessage) (w : World) : World :=
  {| model := model w; wall_clock := wall_clock w; clock_reads := clock_reads w;
     log := log w ++ [r]; encode_calls := encode_calls w |}.

Definition add_call (c : Sentences * EncodeOptions) (w : World) : World :=
  {| model := model w; wall_clock := wall_clock w; clock_reads := clock_reads w;
     log := log w; encode_calls := encode_calls w ++ [c] |}.

(** ** The monad of Python statements: state, plus a raised exception *)

Definition Py (A : Type) : Type := World -> Outcome A * World.

Definition ret {A : Type} (a : A) : Py A := fun w => (Val a, w).

Definition bind {A B : Type} (m : Py A) (f : A -> Py B) : Py B :=
  fun w =>
    match m w with
    | (Val a, w') => f a w'
    | (Raise e, w') => (Raise e, w')
    end.

Notation "'let*' x ':=' m 'in' k" := (bind m (fun x => k))
  (at level 10, x pattern, m at level 100, k at level 200).
Notation "m '>>' k" := (bind m (fun _ => k))
  (at level 100, k at level 200, right associativity).

Definition raise {A : Type} (e : Exn) : Py A := fun w => (Raise e, w).

(** [try: body except Exception as e: handler(e)] *)
Definition try_except {A : Type} (body : Py A) (handler : Exn -> Py A) : Py A :=
  fun w =>
    match body w with
    | (Val a, w') => (Val a, w')
    | (Raise e, w') => handler e w'
    end.

(** Reading the module global [model]. *)
Definition read_model : Py (option SentenceTransformer) :=
  fun w => (Val (model w), w).

(** [time.time()] *)
Definition time_time : Py float :=
  fun w => (Val (wall_clock w (clock_reads w)), tick w).

Definition logger_info (m : LogMessage) : Py unit :=
  fun w => (Val tt, add_log (INFO, m) w).

Definition logger_error (m : LogMessage) : Py unit :=
  fun w => (Val tt, add_log (ERROR, m) w).

(** [model.encode(text, ...)] with a [str]: the call is recorded, then the
    handle answers or raises. *)
Definition model_encode_str (text : pystr) (o : EncodeOptions)
  : Py (list float) :=
  fun w =>
    match model w with
    | None => (Raise (AttributeError (py "NoneType") (py "encode")), w)
    | Some h =>
        let w' := add_call (One text, o) w in
        match encode_str h text o with
        | Val v => (Val v, w')
        | Raise e => (Raise e, w')
        end
    end.

(** [model.encode(texts, ...)] with a [list]. *)
Definition model_encode_list (texts : list pystr) (o : EncodeOptions)
  : Py (list (list float)) :=
  fun w =>
    match model w with
    | None => (Raise (AttributeError (py "NoneType") (py "encode")), w)
    | Some h =>
        let w' := add_call (Many texts, o) w in
        match encode_list h texts o with
        | Val vs => (Val vs, w')
        | Raise e => (Raise e, w')
        end
    end.

(** ** Operations on request data *)

(** [key in data] *)
Definition contains (key : pystr) (data : json) : Py bool :=
  match data with
  | JObj d => ret (match d !! key with Some _ => true | None => false end)
  | JStr s => ret (str_contains key s)
  | JArr l => ret (existsb (str_eq key) l)
  | _ => raise (TypeError (py "argument of type '" ++ type_name data
                            ++ py "' is not iterable"))
  end.

(** [data[key]] for a string key *)
Definition getitem (data : json) (key : pystr) : Py json :=
  match data with
  | JObj d =>
      match d !! key with
      | Some v => ret v
      | None => raise (KeyError key)
      end
  | JStr _ => raise (TypeError (py "string indices must be integers, not 'str'"))
  | JArr _ =>
      raise (TypeError (py "list indices must be integers or slices, not str"))
  | _ => raise (TypeError (py "'" ++ type_name data
                            ++ py "' object is not subscriptable"))
  end.

(** [v.strip()]: defined on strings only.  The result pairs the string
    object itself with its stripped copy; [strip] builds a new string and
    leaves its receiver as it was. *)
Definition method_strip (v : json) : Py (pystr * pystr) :=
  match v with
  | JStr s => ret (s, strip s)
  | _ => raise (AttributeError (type_name v) (py "strip"))
  end.

(** [bool(l)] of a Python list: non-empty. *)
Definition truthy_list {A : Type} (l : list A) : bool :=
  negb (Nat.eqb (length l) 0).

(** [isinstance(v, list)] *)
Definition isinstance_list (v : json) : bool :=
  match v with
  | JArr _ => true
  | _ => false
  end.

(** The elements of a value known to be a list. *)
Definition list_items (v : json) : list json :=
  match v with
  | JArr l => l
  | _ => []
  end.

(** [ndarray.tolist()] for one and two dimensions. *)
Definition tolist (v : list float) : json := JArr (map JFloat v).

Definition tolist2 (vs : list (list float)) : json := JArr (map tolist vs).

Definition JLen (n : nat) : json := JInt (Z.of_nat n).

(** [jsonify({k1: v1, ...})], with the status code of the [return]. *)
Definition Response : Type := json * nat.

Definition jsonify (d : list (string * json)) : json :=
  JObj (list_to_map (map (fun kv => (py (fst kv), snd kv)) d)).

(** [return jsonify(...), status] *)
Definition respond (body : json) (status : nat) : Py Response :=
  ret (body, status).

(** The request object: what [request.get_json()] does for it. *)
Record Request : Type := { body : Outcome json }.

Definition get_json (request : Request) : Py json :=
  match body request with
  | Val data => ret data
  | Raise e => raise e
  end.

(** ** The application (src/app.py) *)

Definition model_name : string := "nomic-embed-text-v1".

(** [load_model()].  [SentenceTransformer_new] is the constructor call
    [SentenceTransformer('nomic-ai/nomic-embed-text-v1', ...)]: it yields a
    handle or raises.  The global is assigned only when it yields. *)
Definition load_model (SentenceTransformer_new : Outcome SentenceTransformer)
  : Py bool :=
  try_except
    (logger_info Loading_model >>
     match SentenceTransformer_new with
     | Val h =>
         (fun w => (Val tt, set_model (Some h) w)) >>
         logger_info Model_loaded >>
         ret true
     | Raise e => raise e
     end)
    (fun e =>
       logger_error (Error_loading_model e) >>
       ret false).

(** [GET /health] *)
Definition health_check : Py Response :=
  let* m := read_model in
  match m with
  | None =>
      respond (jsonify [("status", JStr (py "error"));
                        ("message", JStr (py "Model not loaded"))]) 500
  | Some _ =>
      respond (jsonify [("status", JStr (py "healthy"));
                        ("model", JStr (py model_name))]) 200
  end.

Definition single_options : EncodeOptions :=
  {| convert_to_numpy := true; normalize_embeddings := true;
     batch_size := default_batch_size |}.

Definition batch_options : EncodeOptions :=
  {| convert_to_numpy := true; normalize_embeddings := true;
     batch_size := 32 |}.

(** [not data or key not in data], evaluated left to right. *)
Definition missing_field (key : pystr) (data : json) : Py bool :=
  if negb (truthy data) then ret true
  else let* present := contains key data in ret (negb present).

(** [POST /embed] *)
Definition embed_text (request : Request) : Py Response :=
  try_except
    (let* m := read_model in
     match m with
     | None => respond (jsonify [("error", JStr (py "Model not loaded"))]) 500
     | Some _ =>
         let* data := get_json request in
         let* absent := missing_field (py "text") data in
         if absent
         then respond (jsonify [("error", JStr (py "No text provided"))]) 400
         else
           let* text_value := getitem data (py "text") in
           let* (text, stripped) := method_strip text_value in
           if negb (truthy (JStr stripped))
           then
             respond (jsonify [("error", JStr (py "Empty text provided"))]) 400
           else
             let* start_time := time_time in
             let* embedding := model_encode_str text single_options in
             let* end_time := time_time in
             let processing_time := PrimFloat.sub end_time start_time in
             logger_info (Generated_embedding (length text) processing_time) >>
             respond (jsonify [("embedding", tolist embedding);
                               ("dimensions", JLen (length embedding));
                               ("processing_time", JFloat processing_time);
                               ("model", JStr (py model_name))]) 200
     end)
    (fun e =>
       logger_error (Error_generating_embedding e) >>
       respond (jsonify [("error", JStr (str_exn e))]) 500).

(** [[text for text in texts if text.strip()]]: elements are visited in
    order; the first one without a [strip] method raises. *)
Fixpoint valid_texts_of (texts : list json) : Py (list pystr) :=
  match texts with
  | [] => ret []
  | text_value :: rest =>
      let* (text, stripped) := method_strip text_value in
      let* kept := valid_texts_of rest in
      ret (if truthy (JStr stripped) then text :: kept else kept)
  end.

(** [len(embeddings[0]) if len(embeddings) > 0 else 0] *)
Definition batch_dimensions (embeddings : list (list float)) : nat :=
  match embeddings with
  | [] => 0
  | first :: _ => length first
  end.

(** [POST /embed/batch] *)
Definition embed_batch (request : Request) : Py Response :=
  try_except
    (let* m := read_model in
     match m with
     | None => respond (jsonify [("error", JStr (py "Model not loaded"))]) 500
     | Some _ =>
         let* data := get_json request in
         let* absent := missing_field (py "texts") data in
         if absent
         then respond (jsonify [("error", JStr (py "No texts provided"))]) 400
         else
           let* texts := getitem data (py "texts") in
           if negb (isinstance_list texts)
           then
             respond (jsonify [("error", JStr (py "Texts must be a list"))]) 400
           else
             let* valid_texts := valid_texts_of (list_items texts) in
             if negb (truthy_list valid_texts)
             then
               respond
                 (jsonify [("error", JStr (py "No valid texts provided"))]) 400
             else
               let* start_time := time_time in
               let* embeddings := model_encode_list valid_texts batch_options in
               let* end_time := time_time in
               let processing_time := PrimFloat.sub end_time start_time in
               logger_info
                 (Generated_embeddings (length embeddings) processing_time) >>
               respond
                 (jsonify [("embeddings", tolist2 embeddings);
                           ("count", JLen (length embeddings));
                           ("dimensions", JLen (batch_dimensions embeddings));
                           ("processing_time", JFloat processing_time);
                           ("model", JStr (py model_name))]) 200
     end)
    (fun e =>
       logger_error (Error_generating_batch e) >>
       respond (jsonify [("error", JStr (str_exn e))]) 500).

(** [GET /]; [if model] tests the truth value of the object, which for a
    loaded [SentenceTransformer] is [len(model) != 0]. *)
Definition root : Py Response :=
  let* m := read_model in
  let ready :=
    match m with
    | None => false
    | Some h => negb (Nat.eqb (n_modules h) 0)
    end in
  respond
    (jsonify
       [("service", JStr (py "Nomic Embedding API"));
        ("model", JStr (py model_name));
        ("dimensions", JInt 768);
        ("endpoints",
         jsonify [("health", JStr (py "GET /health"));
                  ("single_embedding", JStr (py "POST /embed"));
                  ("batch_embedding", JStr (py "POST /embed/batch"))]);
        ("status", JStr (py (if ready then "ready" else "loading")))]) 200.

(** ** The process: module import, then request serving *)

(** The routes of the application. *)
Inductive Call : Type :=
| GET_root
| GET_health
| POST_embed (request : Request)
| POST_embed_batch (request : Request).

Definition serve (c : Call) : Py Response :=
  match c with
  | GET_root => root
  | GET_health => health_check
  | POST_embed r => embed_text r
  | POST_embed_batch r => embed_batch r
  end.

(** Where the process is in the module's top-level code: before the call
    [load_model()] of line 32 has returned, or after it, serving requests. *)
Inductive Phase : Type := Importing | Serving.

Record Process : Type := { phase : Phase; world : World }.

(** The world after [model = None] (line 14), before [load_model()]. *)
Definition initial_world (clock : nat -> float) : World :=
  {| model := None; wall_clock := clock; clock_reads := 0;
     log := []; encode_calls := [] |}.

Definition initial (clock : nat -> float) : Process :=
  {| phase := Importing; world := initial_world clock |}.

Inductive step : Process -> Process -> Prop :=
| step_load (w : World) (new : Outcome SentenceTransformer) :
    step {| phase := Importing; world := w |}
         {| phase := Serving; world := snd (load_model new w) |}
| step_serve (w : World) (c : Call) :
    step {| phase := Serving; world := w |}
         {| phase := Serving; world := snd (serve c w) |}.

Inductive reachable (clock : nat -> float) : Process -> Prop :=
| reach_initial : reachable clock (initial clock)
| reach_step (p q : Process) :
    reachable clock p -> step p q -> reachable clock q.

(** The readiness state of the specification, read off the process. *)
Inductive ModelState : Type := Loading | Ready | Failed.

Definition model_state (p : Process) : ModelState :=
  match phase p, model (world p) with
  | Importing, _ => Loading
  | Serving, Some _ => Ready
  | Serving, None => Failed
  end.

(** How many times [load_model] was entered, read off the log: each entry
    writes "Loading Nomic embedding model..." once. *)
Definition is_loading (r : LogLevel * LogMessage) : bool :=
  match snd r with
  | Loading_model => true
  | _ => false
  end.

Definition load_attempts (w : World) : nat :=
  length (List.filter is_loading (log w)).

(** A statement that neither assigns [model] nor enters [load_model]. *)
Definition keeps_model {A : Type} (m : Py A) : Prop :=
  forall w, model (snd (m w)) = model w
            /\ load_attempts (snd (m w)) = load_attempts w.

(** What the load leaves in [model]. *)
Definition loaded (new : Outcome SentenceTransformer)
  : option SentenceTransformer :=
  match new with
  | Val h => Some h
  | Raise _ => None
  end.

(** The readiness a request handler observes in a world. *)
Definition is_ready (w : World) : bool :=
  match model w with
  | Some _ => true
  | None => false
  end.

(** Status code and body of the reply a handler produced. *)
Definition reply {A : Type} (r : Outcome A * World) : Outcome A := fst r.

(** ** Observations and sample data used in the statements *)

(** A request whose body parsed to [data]. *)
Definition post (data : json) : Request := {| body := Val data |}.

(** The JSON object with the given members, as a request body. *)
Definition object (members : list (string * json)) : json := jsonify members.

Definition status (r : Outcome Response * World) : option nat :=
  match fst r with
  | Val (_, code) => Some code
  | Raise _ => None
  end.

(** A member of the reply's JSON object. *)
Definition field (key : string) (r : Outcome Response * World) : option json :=
  match fst r with
  | Val (JObj d, _) => d !! py key
  | _ => None
  end.

(** Lookup by key in the member list of a dict literal. *)
Fixpoint assoc (key : string) (members : list (string * json)) : option json :=
  match members with
  | [] => None
  | (k, v) :: rest => if String.eqb k key then Some v else assoc key rest
  end.

(** Non-empty after trimming. *)
Definition nonblank (s : pystr) : Prop := strip s ≠ [].

#[export] Instance nonblank_dec (s : pystr) : Decision (nonblank s).
Proof. unfold nonblank. apply _. Defined.

(** The first element of a list that is not a string, if any. *)
Fixpoint first_non_str (l : list json) : option json :=
  match l with
  | [] => None
  | JStr _ :: rest => first_non_str rest
  | v :: _ => Some v
  end.

(** The string elements of a list, in order. *)
Fixpoint strings_of (l : list json) : list pystr :=
  match l with
  | [] => []
  | JStr s :: rest => s :: strings_of rest
  | _ :: rest => strings_of rest
  end.

(** The replies of the endpoints, as values. *)
Definition error_reply (message : pystr) (code : nat) : Response :=
  (jsonify [("error", JStr message)], code).

Definition single_reply (embedding : list float) (processing_time : float)
  : Response :=
  (jsonify [("embedding", tolist embedding);
            ("dimensions", JLen (length embedding));
            ("processing_time", JFloat processing_time);
            ("model", JStr (py model_name))], 200).

Definition batch_reply (embeddings : list (list float))
  (processing_time : float) : Response :=
  (jsonify [("embeddings", tolist2 embeddings);
            ("count", JLen (length embeddings));
            ("dimensions", JLen (batch_dimensions embeddings));
            ("processing_time", JFloat processing_time);
            ("model", JStr (py model_name))], 200).

Definition healthy_reply : Response :=
  (jsonify [("status", JStr (py "healthy")); ("model", JStr (py model_name))],
   200).

Definition unhealthy_reply : Response :=
  (jsonify [("status", JStr (py "error"));
            ("message", JStr (py "Model not loaded"))], 500).

(** The duration measured around an [encode] call that starts in [w]. *)
Definition elapsed (w : World) : float :=
  PrimFloat.sub (wall_clock w (S (clock_reads w))) (wall_clock w (clock_reads w)).

(** [str(e)] of the exception raised by [v.strip()] on a non-string. *)
Definition no_strip (v : json) : Exn := AttributeError (type_name v) (py "strip").

(** A stand-in handle with two-dimensional unit vectors. *)
Definition sample_vector (t : pystr) : list float :=
  if Nat.even (length t) then [1%float; 0%float] else [0%float; 1%float].

Definition sample_handle : SentenceTransformer :=
  {| encode_str := fun t _ => Val (sample_vector t);
     encode_list := fun ts _ => Val (map sample_vector ts);
     n_modules := 1 |}.

Definition sample_clock (n : nat) : float :=
  if Nat.even n then 1%float else 3%float.

(** A world whose load failed or has not happened, and one that is ready. *)
Definition cold_world : World := initial_world sample_clock.

Definition ready_world : World := set_model (Some sample_handle) cold_world.

(** A process that loaded the stand-in handle and served one request. *)
Definition sample_run : Process :=
  {| phase := Serving;
     world := snd (serve (POST_embed {| body := Val (JObj ∅) |})
                     (snd (load_model (Val sample_handle)
                             (initial_world (fun _ => PrimFloat.zero))))) |}.

(** The batch of the specification's example: [["", "  ", "hello"]]. *)
Definition example_texts : list pystr := [py ""; py "  "; py "hello"].

Definition example_batch : gmap pystr json :=
  {[ py "texts" := JArr (map JStr example_texts) ]}.

(** A single request whose text has whitespace on both sides and inside. *)
Definition padded_text : pystr := py "  hello  world ".

Definition example_single : gmap pystr json :=
  {[ py "text" := JStr padded_text ]}.

(** Requests whose text values are not strings. *)
Definition number_single : gmap pystr json := {[ py "text" := JInt 5 ]}.

Definition null_in_batch : gmap pystr json :=
  {[ py "texts" := JArr [JStr (py "hello"); JNull; JInt 7] ]}.

(** A batch of two texts. *)
Definition pair_texts : list pystr := [py "hello"; py "hi"].

Definition pair_batch : gmap pystr json :=
  {[ py "texts" := JArr (map JStr pair_texts) ]}.

(** A batch whose texts are all empty after trimming. *)
Definition all_blank_batch : gmap pystr json :=
  {[ py "texts" := JArr [JStr (py ""); JStr (py "  ")] ]}.

(** The readiness state the load leaves behind. *)
Definition outcome_state (new : Outcome SentenceTransformer) : ModelState :=
  match new with
  | Val _ => Ready
  | Raise _ => Failed
  end.

(** A handle whose [encode] always raises. *)
Definition failing_handle : SentenceTransformer :=
  {| encode_str := fun _ _ => Raise (ExternalError (py "out of memory"));
     encode_list := fun _ _ => Raise (ExternalError (py "out of memory"));
     n_modules := 1 |}.

Definition failing_world : World := set_model (Some failing_handle) cold_world.

(** The world after the module was imported with the given outcome of the
    constructor call, and after a sequence of requests was served. *)
Definition boot (new : Outcome SentenceTransformer) (clock : nat -> float)
  : World :=
  snd (load_model new (initial_world clock)).

Fixpoint serve_all (calls : list Call) (w : World) : World :=
  match calls with
  | [] => w
  | c :: rest => serve_all rest (snd (serve c w))
  end.

(** The two embedding endpoints. *)
Inductive Endpoint : Type := Single | Batch.

Definition handler (ep : Endpoint) : Request -> Py Response :=
  match ep with
  | Single => embed_text
  | Batch => embed_batch
  end.

(** The member of the body an endpoint reads. *)
Definition input_key (ep : Endpoint) : string :=
  match ep with
  | Single => "text"
  | Batch => "texts"
  end.

Definition missing_message (ep : Endpoint) : string :=
  match ep with
  | Single => "No text provided"
  | Batch => "No texts provided"
  end.

(** The record an endpoint logs for a caught exception. *)
Definition error_record (ep : Endpoint) (e : Exn) : LogLevel * LogMessage :=
  match ep with
  | Single => (ERROR, Error_generating_embedding e)
  | Batch => (ERROR, Error_generating_batch e)
  end.

(** The ways in which [embed_text] and [embed_batch] can end, from a world
    [w]: the readiness gate, a rejected body, an exception caught before the
    model was called, an exception raised by the model, and the successful
    reply of the endpoint. *)
Inductive answered (w : World) : Endpoint -> Outcome Response * World -> Prop :=
| answered_unavailable (ep : Endpoint) :
    model w = None ->
    answered w ep (Val (error_reply (py "Model not loaded") 500), w)
| answered_rejected (ep : Endpoint) (message : pystr) :
    answered w ep (Val (error_reply message 400), w)
| answered_caught (ep : Endpoint) (e : Exn) :
    answered w ep (Val (error_reply (str_exn e) 500),
                   add_log (error_record ep e) w)
| answered_encode_failed (ep : Endpoint) (e : Exn)
    (c : Sentences * EncodeOptions) :
    answered w ep (Val (error_reply (str_exn e) 500),
                   add_log (error_record ep e) (add_call c (tick w)))
| answered_single (v : list float) (t : pystr) :
    answered w Single
      (Val (single_reply v (elapsed w)),
       add_log (INFO, Generated_embedding (length t) (elapsed w))
         (tick (add_call (One t, single_options) (tick w))))
| answered_batch (vs : list (list float)) (ts : list pystr) :
    answered w Batch
      (Val (batch_reply vs (elapsed w)),
       add_log (INFO, Generated_embeddings (length vs) (elapsed w))
         (tick (add_call (Many ts, batch_options) (tick w)))).

(** JSON scalars on which [in] is not defined: [bool], [int], [float]. *)
Definition is_scalar (v : json) : bool :=
  match v with
  | JBool _ | JInt _ | JFloat _ => true
  | _ => false
  end.

(** A body for [/embed] that carries other members besides [text]. *)
Definition crowded_single : gmap pystr json :=
  <[ py "texts" := JArr [JStr (py "ignored")] ]>
    (<[ py "user" := JInt 7 ]> example_single).

(** A request whose body could not be parsed: [get_json] raises. *)
Definition bad_request : Request :=
  {| body := Raise (ExternalError (py "400 Bad Request")) |}.

(** A text of a space, a no-break space and a tab. *)
Definition blank_text : pystr := [0x20; 0xA0; 0x09]%N.

Definition blank_single : gmap pystr json := {[ py "text" := JStr blank_text ]}.

Definition string_as_texts : gmap pystr json :=
  {[ py "texts" := JStr (py "hello") ]}.

Arguments py : simpl never.
Arguments jsonify : simpl never.

(** * Properties *)

(** ** The monad and the primitives *)

Lemma bind_val {A B : Type} (m : Py A) (f : A -> Py B) w a w' :
  m w = (Val a, w') -> bind m f w = f a w'.
Proof. intros H. unfold bind. now rewrite H. Qed.

Lemma bind_raise {A B : Type} (m : Py A) (f : A -> Py B) w e w' :
  m w = (Raise e, w') -> bind m f w = (Raise e, w').
Proof. intros H. unfold bind. now rewrite H. Qed.

Lemma try_val {A : Type} (m : Py A) (k : Exn -> Py A) w a w' :
  m w = (Val a, w') -> try_except m k w = (Val a, w').
Proof. intros H. unfold try_except. now rewrite H. Qed.

Lemma try_raise {A : Type} (m : Py A) (k : Exn -> Py A) w e w' :
  m w = (Raise e, w') -> try_except m k w = k e w'.
Proof. intros H. unfold try_except. now rewrite H. Qed.

(** ** Strings *)

Lemma N_of_ascii_inj a b : N_of_ascii a = N_of_ascii b -> a = b.
Proof.
  intros H. rewrite <- (ascii_N_embedding a), <- (ascii_N_embedding b).
  now rewrite H.
Qed.

Lemma list_ascii_of_string_inj s t :
  list_ascii_of_string s = list_ascii_of_string t -> s = t.
Proof.
  intros H. rewrite <- (string_of_list_ascii_of_string s).
  rewrite <- (string_of_list_ascii_of_string t). now rewrite H.
Qed.

Lemma py_inj s t : py s = py t -> s = t.
Proof.
  unfold py. intros H. apply list_ascii_of_string_inj.
  revert H. generalize (list_ascii_of_string s) (list_ascii_of_string t).
  induction l as [|a l IH]; intros [|b l'] H; simpl in H; try discriminate.
  - reflexivity.
  - injection H as Hab Hl. f_equal; [now apply N_of_ascii_inj | now apply IH].
Qed.

(** A dict literal is read back member by member. *)
Lemma jsonify_lookup (members : list (string * json)) (key : string) :
  match jsonify members with
  | JObj d => d !! py key
  | _ => None
  end = assoc key members.
Proof.
  unfold jsonify. induction members as [|[k v] rest IH]; simpl.
  - apply lookup_empty.
  - rewrite lookup_insert. destruct (String.eqb_spec k key) as [->|Hne].
    + now rewrite decide_True.
    + rewrite decide_False; [exact IH|]. intros H. now apply py_inj in H.
Qed.

Lemma field_jsonify key members code w :
  field key (Val (jsonify members, code), w) = assoc key members.
Proof. unfold field. simpl fst. apply (jsonify_lookup members key). Qed.

Lemma lstrip_nil_iff s : lstrip s = [] <-> forallb isspace s = true.
Proof.
  induction s as [|c s IH]; simpl; [tauto|].
  destruct (isspace c); simpl; [exact IH|]. split; discriminate.
Qed.

Lemma lstrip_head s c s' : lstrip s = c :: s' -> isspace c = false.
Proof.
  induction s as [|a s IH]; simpl; [discriminate|].
  destruct (isspace a) eqn:Ha; [exact IH|].
  intros H. injection H as -> _. exact Ha.
Qed.

(** A string is empty after trimming exactly when it is all whitespace. *)
Lemma strip_nil_iff s : strip s = [] <-> forallb isspace s = true.
Proof.
  unfold strip, rstrip. rewrite <- lstrip_nil_iff. split.
  - intros H. apply (f_equal (@rev N)) in H. rewrite rev_involutive in H.
    simpl in H. apply lstrip_nil_iff in H. rewrite forallb_forall in H.
    destruct (lstrip s) as [|c s'] eqn:E; [reflexivity|].
    apply lstrip_head in E. rewrite (H c) in E; [discriminate|].
    apply in_rev. rewrite rev_involutive. now left.
  - intros ->. reflexivity.
Qed.

Lemma truthy_stripped s : truthy (JStr (strip s)) = bool_decide (nonblank s).
Proof.
  destruct (decide (nonblank s)) as [H|H].
  - rewrite bool_decide_true by assumption. unfold nonblank in H.
    simpl. now destruct (strip s).
  - rewrite bool_decide_false by assumption. unfold nonblank in H.
    simpl. destruct (strip s); [reflexivity|]. now destruct H.
Qed.

(** ** The list comprehension of the batch endpoint *)

Lemma valid_texts_of_spec (texts : list json) (w : World) :
  valid_texts_of texts w =
  match first_non_str texts with
  | Some v => (Raise (AttributeError (type_name v) (py "strip")), w)
  | None => (Val (filter nonblank (strings_of texts)), w)
  end.
Proof.
  induction texts as [|v rest IH]; [reflexivity|].
  destruct v; try reflexivity.
  cbn [valid_texts_of first_non_str strings_of method_strip].
  unfold bind at 1. cbn [ret]. unfold bind at 1. rewrite IH.
  destruct (first_non_str rest); [reflexivity|].
  unfold ret. rewrite truthy_stripped.
  destruct (decide (nonblank s)) as [H|H].
  - now rewrite bool_decide_true, filter_cons_True.
  - now rewrite bool_decide_false, filter_cons_False.
Qed.

Lemma first_non_str_strings (ts : list pystr) : first_non_str (map JStr ts) = None.
Proof. induction ts; simpl; auto. Qed.

Lemma strings_of_strings (ts : list pystr) : strings_of (map JStr ts) = ts.
Proof. induction ts; simpl; congruence. Qed.

Lemma first_non_str_some (l : list json) v :
  first_non_str l = Some v -> In v l /\ forall s, v <> JStr s.
Proof.
  induction l as [|x l IH]; simpl; [discriminate|].
  destruct x; try (intros H; injection H as <-; split; [now left|discriminate]).
  intros H. destruct (IH H). split; [now right|assumption].
Qed.

Lemma first_non_str_exists (l : list json) v :
  In v l -> (forall s, v <> JStr s) -> exists v0, first_non_str l = Some v0.
Proof.
  induction l as [|x l IH]; simpl; [tauto|].
  intros [->|Hin] Hv.
  - destruct v; try (eexists; reflexivity). now destruct (Hv s).
  - destruct x; try (eexists; reflexivity). now apply IH.
Qed.

(** ** Field presence *)

Lemma lookup_some_truthy (d : gmap pystr json) key v :
  d !! key = Some v -> truthy (JObj d) = true.
Proof.
  intros H. simpl. destruct (size d) eqn:E; [|reflexivity].
  apply map_size_empty_inv in E. subst d. now rewrite lookup_empty in H.
Qed.

Lemma missing_field_present (d : gmap pystr json) key v w :
  d !! key = Some v -> missing_field key (JObj d) w = (Val false, w).
Proof.
  intros H. unfold missing_field. rewrite (lookup_some_truthy d key v H).
  simpl. unfold bind, ret. now rewrite H.
Qed.

Lemma missing_field_absent (d : gmap pystr json) key w :
  d !! key = None -> missing_field key (JObj d) w = (Val true, w).
Proof.
  intros H. unfold missing_field. destruct (truthy (JObj d)); [|reflexivity].
  simpl. unfold bind, ret. now rewrite H.
Qed.

(** ** The endpoints, case by case *)

(** Symbolic execution of a handler body: expose the state passing, then
    reduce what is decided. *)
Ltac run_py :=
  unfold try_except, bind, read_model, get_json, respond,
    method_strip, getitem, time_time, model_encode_str, model_encode_list,
    logger_info, logger_error, ret, raise;
  cbv beta iota; cbn [body post model tick add_call add_log].

Ltac run_with H := rewrite H; cbv beta iota.

Lemma embed_text_not_ready request w :
  model w = None ->
  embed_text request w = (Val (error_reply (py "Model not loaded") 500), w).
Proof. intros Hm. unfold embed_text. run_py. now run_with Hm. Qed.

Lemma embed_batch_not_ready request w :
  model w = None ->
  embed_batch request w = (Val (error_reply (py "Model not loaded") 500), w).
Proof. intros Hm. unfold embed_batch. run_py. now run_with Hm. Qed.

Lemma embed_text_missing (h : SentenceTransformer) (d : gmap pystr json) w :
  model w = Some h -> d !! py "text" = None ->
  embed_text (post (JObj d)) w
  = (Val (error_reply (py "No text provided") 400), w).
Proof.
  intros Hm Hd. unfold embed_text. run_py. run_with Hm.
  now run_with (missing_field_absent d _ w Hd).
Qed.

Lemma embed_batch_missing (h : SentenceTransformer) (d : gmap pystr json) w :
  model w = Some h -> d !! py "texts" = None ->
  embed_batch (post (JObj d)) w
  = (Val (error_reply (py "No texts provided") 400), w).
Proof.
  intros Hm Hd. unfold embed_batch. run_py. run_with Hm.
  now run_with (missing_field_absent d _ w Hd).
Qed.

Lemma embed_text_non_str (h : SentenceTransformer) (d : gmap pystr json) v w :
  model w = Some h -> d !! py "text" = Some v -> (forall s, v <> JStr s) ->
  embed_text (post (JObj d)) w
  = (Val (error_reply (str_exn (no_strip v)) 500),
     add_log (ERROR, Error_generating_embedding (no_strip v)) w).
Proof.
  intros Hm Hd Hv. unfold embed_text. run_py. run_with Hm.
  run_with (missing_field_present d _ v w Hd). run_with Hd.
  destruct v; try reflexivity. now destruct (Hv s).
Qed.

Lemma embed_text_blank (h : SentenceTransformer) (d : gmap pystr json) t w :
  model w = Some h -> d !! py "text" = Some (JStr t) -> ~ nonblank t ->
  embed_text (post (JObj d)) w
  = (Val (error_reply (py "Empty text provided") 400), w).
Proof.
  intros Hm Hd Ht. unfold embed_text. run_py. run_with Hm.
  run_with (missing_field_present d _ _ w Hd). run_with Hd.
  rewrite truthy_stripped, bool_decide_false by assumption. reflexivity.
Qed.

Lemma embed_text_valid (h : SentenceTransformer) (d : gmap pystr json) t w :
  model w = Some h -> d !! py "text" = Some (JStr t) -> nonblank t ->
  embed_text (post (JObj d)) w
  = let w1 := add_call (One t, single_options) (tick w) in
    match encode_str h t single_options with
    | Val v =>
        (Val (single_reply v (elapsed w)),
         add_log (INFO, Generated_embedding (length t) (elapsed w)) (tick w1))
    | Raise e =>
        (Val (error_reply (str_exn e) 500),
         add_log (ERROR, Error_generating_embedding e) w1)
    end.
Proof.
  intros Hm Hd Ht. unfold embed_text. run_py. run_with Hm.
  run_with (missing_field_present d _ _ w Hd). run_with Hd.
  rewrite truthy_stripped, bool_decide_true by assumption.
  cbn [negb]. run_with Hm.
  destruct (encode_str h t single_options); reflexivity.
Qed.

Lemma embed_batch_not_list (h : SentenceTransformer) (d : gmap pystr json)
  v w :
  model w = Some h -> d !! py "texts" = Some v -> isinstance_list v = false ->
  embed_batch (post (JObj d)) w
  = (Val (error_reply (py "Texts must be a list") 400), w).
Proof.
  intros Hm Hd Hv. unfold embed_batch. run_py. run_with Hm.
  run_with (missing_field_present d _ _ w Hd). run_with Hd.
  now rewrite Hv.
Qed.

Lemma embed_batch_list (h : SentenceTransformer) (d : gmap pystr json) l w :
  model w = Some h -> d !! py "texts" = Some (JArr l) ->
  embed_batch (post (JObj d)) w
  = match first_non_str l with
    | Some v =>
        (Val (error_reply (str_exn (no_strip v)) 500),
         add_log (ERROR, Error_generating_batch (no_strip v)) w)
    | None =>
        let valid_texts := filter nonblank (strings_of l) in
        let w1 := add_call (Many valid_texts, batch_options) (tick w) in
        match valid_texts with
        | [] => (Val (error_reply (py "No valid texts provided") 400), w)
        | _ :: _ =>
            match encode_list h valid_texts batch_options with
            | Val vs =>
                (Val (batch_reply vs (elapsed w)),
                 add_log (INFO, Generated_embeddings (length vs) (elapsed w))
                   (tick w1))
            | Raise e =>
                (Val (error_reply (str_exn e) 500),
                 add_log (ERROR, Error_generating_batch e) w1)
            end
        end
    end.
Proof.
  intros Hm Hd. unfold embed_batch. run_py. run_with Hm.
  run_with (missing_field_present d _ _ w Hd). run_with Hd.
  cbn [isinstance_list list_items negb]. cbv beta iota.
  rewrite valid_texts_of_spec.
  destruct (first_non_str l) as [v|]; [reflexivity|]. cbv beta iota.
  destruct (filter nonblank (strings_of l)) as [|t kept] eqn:E;
    [reflexivity|].
  cbn [truthy_list length Nat.eqb negb]. cbv beta iota. run_with Hm.
  destruct (encode_list h (t :: kept) batch_options); reflexivity.
Qed.

Lemma health_check_run w :
  health_check w
  = (Val (if is_ready w then healthy_reply else unhealthy_reply), w).
Proof.
  unfold health_check, is_ready. run_py. now destruct (model w).
Qed.

Lemma is_ready_false w : is_ready w = false <-> model w = None.
Proof. unfold is_ready. destruct (model w); split; congruence. Qed.

Lemma is_ready_true w : is_ready w = true <-> exists h, model w = Some h.
Proof.
  unfold is_ready. destruct (model w) as [h|]; split; try congruence.
  - intros _. now exists h.
  - intros [h H]. discriminate.
Qed.

(** ** The readiness gate *)

(** C4: whenever the model is not ready, [POST /embed] and
    [POST /embed/batch] answer 500 "Model not loaded" for every request, and
    leave the world as it was: in particular the trace of [encode] calls
    gains no entry. *)
Theorem not_ready_fails_without_encode (request : Request) (w : World) :
  is_ready w = false ->
  reply (embed_text request w) = Val (error_reply (py "Model not loaded") 500)
  /\ reply (embed_batch request w)
     = Val (error_reply (py "Model not loaded") 500)
  /\ encode_calls (snd (embed_text request w)) = encode_calls w
  /\ encode_calls (snd (embed_batch request w)) = encode_calls w.
Proof.
  intros Hr. apply is_ready_false in Hr.
  rewrite (embed_text_not_ready request w Hr).
  rewrite (embed_batch_not_ready request w Hr).
  repeat split; reflexivity.
Qed.

Lemma not_ready_fails_without_encode_witness :
  is_ready cold_world = false
  /\ reply (embed_text (post (object [("text", JStr (py "hello"))])) cold_world)
     = Val (error_reply (py "Model not loaded") 500)
  /\ encode_calls
       (snd (embed_batch
               (post (object [("texts", JArr [JStr (py "hello")])]))
               cold_world)) = [].
Proof.
  split; [reflexivity|].
  split.
  - apply (not_ready_fails_without_encode
             (post (object [("text", JStr (py "hello"))])) cold_world).
    reflexivity.
  - apply (not_ready_fails_without_encode
             (post (object [("texts", JArr [JStr (py "hello")])])) cold_world).
    reflexivity.
Defined.

(** C5: [GET /health] answers 500 with [{status: error, message}] exactly
    when the model is not ready, and 200 with [{status: healthy, model}]
    otherwise; it changes nothing. *)
Theorem health_check_reports_readiness (w : World) :
  health_check w
  = (Val (if is_ready w then healthy_reply else unhealthy_reply), w)
  /\ (reply (health_check w) = Val unhealthy_reply <-> is_ready w = false)
  /\ (status (health_check w) = Some 500 <-> is_ready w = false)
  /\ (status (health_check w) = Some 200 <-> is_ready w = true).
Proof.
  rewrite health_check_run. unfold reply, status. cbn [fst].
  destruct (is_ready w); repeat split; intros H;
    try reflexivity; discriminate H.
Qed.

(** C1, as the code has it: for a body that is a JSON object without a
    [text] member, [POST /embed] answers 400 "No text provided" when the model
    is ready and 500 "Model not loaded" when it is not; the readiness gate
    comes before the validation of the body.  No [encode] call is made. *)
Theorem missing_text_after_readiness_gate (d : gmap pystr json) (w : World) :
  d !! py "text" = None ->
  reply (embed_text (post (JObj d)) w)
  = Val (if is_ready w
         then error_reply (py "No text provided") 400
         else error_reply (py "Model not loaded") 500)
  /\ encode_calls (snd (embed_text (post (JObj d)) w)) = encode_calls w.
Proof.
  intros Hd. unfold is_ready. destruct (model w) as [h|] eqn:Hm.
  - now rewrite (embed_text_missing h d w Hm Hd).
  - now rewrite (embed_text_not_ready _ w Hm).
Qed.

Lemma missing_text_after_readiness_gate_witness :
  reply (embed_text (post (JObj ∅)) ready_world)
  = Val (error_reply (py "No text provided") 400)
  /\ encode_calls (snd (embed_text (post (JObj ∅)) ready_world)) = [].
Proof.
  apply (missing_text_after_readiness_gate ∅ ready_world). apply lookup_empty.
Defined.

(** C1 as stated fails: with the model not loaded, a body without [text]
    is answered 500 "Model not loaded", not 400. *)
Lemma missing_text_not_always_400 :
  (∅ : gmap pystr json) !! py "text" = None
  /\ is_ready cold_world = false
  /\ reply (embed_text (post (JObj ∅)) cold_world)
     = Val (error_reply (py "Model not loaded") 500)
  /\ status (embed_text (post (JObj ∅)) cold_world) <> Some 400.
Proof.
  split; [apply lookup_empty|]. split; [reflexivity|].
  rewrite (embed_text_not_ready (post (JObj ∅)) cold_world eq_refl).
  split; [reflexivity|]. unfold status. cbn. discriminate.
Qed.

(** ** Batch validation *)

Lemma embed_batch_strings (h : SentenceTransformer) (d : gmap pystr json)
  (ts : list pystr) w :
  model w = Some h -> d !! py "texts" = Some (JArr (map JStr ts)) ->
  embed_batch (post (JObj d)) w
  = let valid_texts := filter nonblank ts in
    let w1 := add_call (Many valid_texts, batch_options) (tick w) in
    match valid_texts with
    | [] => (Val (error_reply (py "No valid texts provided") 400), w)
    | _ :: _ =>
        match encode_list h valid_texts batch_options with
        | Val vs =>
            (Val (batch_reply vs (elapsed w)),
             add_log (INFO, Generated_embeddings (length vs) (elapsed w))
               (tick w1))
        | Raise e =>
            (Val (error_reply (str_exn e) 500),
             add_log (ERROR, Error_generating_batch e) w1)
        end
    end.
Proof.
  intros Hm Hd. rewrite (embed_batch_list h d _ w Hm Hd).
  now rewrite first_non_str_strings, strings_of_strings.
Qed.

Lemma embed_batch_kept_calls (h : SentenceTransformer) (d : gmap pystr json)
  (ts : list pystr) w :
  model w = Some h -> d !! py "texts" = Some (JArr (map JStr ts)) ->
  filter nonblank ts <> [] ->
  encode_calls (snd (embed_batch (post (JObj d)) w))
  = (encode_calls w ++ [(Many (filter nonblank ts), batch_options)])%list.
Proof.
  intros Hm Hd Hk. rewrite (embed_batch_strings h d ts w Hm Hd). cbv zeta.
  destruct (filter nonblank ts) as [|t0 rest]; [now destruct Hk|].
  destruct (encode_list h (t0 :: rest) batch_options); reflexivity.
Qed.

(** C3, as the code has it: for a batch whose [texts] is a sequence of
    strings, served by a ready model, validation keeps exactly the elements that are non-empty
    after trimming, in their order; when none is left the answer is 400
    "No valid texts provided" and the model is not called; otherwise the kept
    texts are what [encode] receives and, when [encode] returns one vector
    per text, the answer is 200 with [count] the number of kept texts. *)
Theorem batch_validation_filters (h : SentenceTransformer)
  (d : gmap pystr json) (ts : list pystr) (w : World) :
  model w = Some h ->
  d !! py "texts" = Some (JArr (map JStr ts)) ->
  let kept := filter nonblank ts in
  let r := embed_batch (post (JObj d)) w in
  kept `sublist_of` ts
  /\ (forall t, t ∈ kept <-> t ∈ ts /\ nonblank t)
  /\ (kept = [] ->
      reply r = Val (error_reply (py "No valid texts provided") 400)
      /\ encode_calls (snd r) = encode_calls w)
  /\ (kept <> [] ->
      encode_calls (snd r)
      = (encode_calls w ++ [(Many kept, batch_options)])%list)
  /\ (kept <> [] ->
      forall vs, encode_list h kept batch_options = Val vs ->
                 length vs = length kept ->
                 reply r = Val (batch_reply vs (elapsed w))
                 /\ status r = Some 200
                 /\ field "count" r = Some (JLen (length kept))
                 /\ field "embeddings" r = Some (tolist2 vs)).
Proof.
  intros Hm Hd kept r. subst kept r.
  pose proof (embed_batch_strings h d ts w Hm Hd) as Hrun. cbv zeta in Hrun.
  split; [apply sublist_filter|].
  split; [intros t; rewrite list_elem_of_filter; tauto|].
  split; [|split].
  - intros Hk. rewrite Hrun, Hk. split; reflexivity.
  - intros Hk. now apply (embed_batch_kept_calls h).
  - intros Hk vs Hvs Hlen. rewrite Hrun.
    destruct (filter nonblank ts) as [|t0 rest]; [now destruct Hk|].
    rewrite Hvs. split; [reflexivity|]. split; [reflexivity|].
    unfold batch_reply. rewrite !field_jsonify. cbn [assoc String.eqb].
    split; [|reflexivity]. now rewrite Hlen.
Qed.

Lemma batch_validation_filters_witness :
  filter nonblank example_texts = [py "hello"]
  /\ status (embed_batch (post (JObj example_batch)) ready_world) = Some 200
  /\ field "count" (embed_batch (post (JObj example_batch)) ready_world)
     = Some (JInt 1)
  /\ field "embeddings" (embed_batch (post (JObj example_batch)) ready_world)
     = Some (tolist2 [sample_vector (py "hello")]).
Proof.
  assert (Hk : filter nonblank example_texts = [py "hello"])
    by (vm_compute; reflexivity).
  split; [exact Hk|].
  destruct (batch_validation_filters sample_handle example_batch example_texts
              ready_world eq_refl (lookup_singleton_eq _ _))
    as (_ & _ & _ & _ & H).
  rewrite Hk in H.
  destruct (H ltac:(discriminate) [sample_vector (py "hello")]
              eq_refl eq_refl) as (_ & Hs & Hc & He).
  split; [exact Hs|]. split; [exact Hc|exact He].
Defined.

(** C3 as stated fails: it holds neither for every model state nor for
    every sequence.  With the model not loaded, a batch whose texts are all
    discarded is answered 500 "Model not loaded", not 400; and with the model
    ready, a batch with a surviving text and a non-string element does not
    succeed: it is answered 500. *)
Lemma batch_validation_not_unconditional :
  filter nonblank [py ""; py "  "] = []
  /\ all_blank_batch !! py "texts" = Some (JArr (map JStr [py ""; py "  "]))
  /\ is_ready cold_world = false
  /\ reply (embed_batch (post (JObj all_blank_batch)) cold_world)
     = Val (error_reply (py "Model not loaded") 500)
  /\ status (embed_batch (post (JObj all_blank_batch)) cold_world) <> Some 400
  /\ null_in_batch !! py "texts"
     = Some (JArr [JStr (py "hello"); JNull; JInt 7])
  /\ nonblank (py "hello")
  /\ is_ready ready_world = true
  /\ status (embed_batch (post (JObj null_in_batch)) ready_world) = Some 500
  /\ status (embed_batch (post (JObj null_in_batch)) ready_world) <> Some 200.
Proof.
  split; [vm_compute; reflexivity|].
  split; [apply lookup_singleton_eq|]. split; [reflexivity|].
  rewrite (embed_batch_not_ready (post (JObj all_blank_batch)) cold_world
             eq_refl).
  split; [reflexivity|]. split; [unfold status; cbn; discriminate|].
  split; [apply lookup_singleton_eq|].
  split; [unfold nonblank; vm_compute; discriminate|]. split; [reflexivity|].
  rewrite (embed_batch_list sample_handle null_in_batch
             [JStr (py "hello"); JNull; JInt 7] ready_world
             eq_refl (lookup_singleton_eq _ _)).
  cbn [first_non_str].
  split; [reflexivity|]. unfold status. cbn. discriminate.
Qed.

(** ** What reaches the model *)

(** C8: the texts handed to [encode] are the request's own strings.  The
    single endpoint passes the [text] value as it came, the batch endpoint
    the kept elements of [texts], each an element of the request's list;
    [strip] only feeds the emptiness test. *)
Theorem texts_reach_encode_unchanged (h : SentenceTransformer) (w : World) :
  model w = Some h ->
  (forall (d : gmap pystr json) (t : pystr),
      d !! py "text" = Some (JStr t) -> nonblank t ->
      encode_calls (snd (embed_text (post (JObj d)) w))
      = (encode_calls w ++ [(One t, single_options)])%list)
  /\ (forall (d : gmap pystr json) (ts : list pystr),
         d !! py "texts" = Some (JArr (map JStr ts)) ->
         filter nonblank ts <> [] ->
         encode_calls (snd (embed_batch (post (JObj d)) w))
         = (encode_calls w ++ [(Many (filter nonblank ts), batch_options)])%list
         /\ filter nonblank ts `sublist_of` ts
         /\ Forall (fun t => t ∈ ts) (filter nonblank ts)).
Proof.
  intros Hm. split.
  - intros d t Hd Ht. rewrite (embed_text_valid h d t w Hm Hd Ht). cbv zeta.
    destruct (encode_str h t single_options); reflexivity.
  - intros d ts Hd Hk.
    split; [now apply (embed_batch_kept_calls h)|].
    split; [apply sublist_filter|].
    apply Forall_forall. intros t Ht. now apply list_elem_of_filter in Ht.
Qed.

Lemma nonblank_padded : nonblank padded_text.
Proof. unfold nonblank. vm_compute. discriminate. Qed.

Lemma example_kept : filter nonblank example_texts = [py "hello"].
Proof. vm_compute. reflexivity. Qed.

Lemma texts_reach_encode_unchanged_witness :
  encode_calls (snd (embed_text (post (JObj example_single)) ready_world))
  = [(One padded_text, single_options)]
  /\ strip padded_text <> padded_text
  /\ encode_calls (snd (embed_batch (post (JObj example_batch)) ready_world))
     = [(Many [py "hello"], batch_options)].
Proof.
  destruct (texts_reach_encode_unchanged sample_handle ready_world eq_refl)
    as [Hsingle Hbatch].
  split.
  - exact (Hsingle example_single padded_text (lookup_singleton_eq _ _)
             nonblank_padded).
  - split; [vm_compute; discriminate|].
    destruct (Hbatch example_batch example_texts (lookup_singleton_eq _ _))
      as [Hcalls _].
    + rewrite example_kept. discriminate.
    + rewrite example_kept in Hcalls. exact Hcalls.
Defined.

(** ** The reported dimensionality *)

Lemma batch_reply_dimensions vs t w :
  field "dimensions" (Val (batch_reply vs t), w)
  = Some (JLen (batch_dimensions vs)).
Proof. unfold batch_reply. now rewrite field_jsonify. Qed.

(** C9: a successful batch reply reports as [dimensions] the length of the
    first vector returned, and 0 when no vector was returned.  When at least
    one text was kept and [encode] returns one vector per text, the list of
    vectors is not empty, so the reported value is the length of a vector
    that was returned: the common length, when all vectors have one. *)
Theorem batch_dimensions_first_vector (h : SentenceTransformer)
  (d : gmap pystr json) (ts : list pystr) (w : World)
  (vs : list (list float)) :
  model w = Some h ->
  d !! py "texts" = Some (JArr (map JStr ts)) ->
  filter nonblank ts <> [] ->
  encode_list h (filter nonblank ts) batch_options = Val vs ->
  let r := embed_batch (post (JObj d)) w in
  status r = Some 200
  /\ field "dimensions" r = Some (JLen (batch_dimensions vs))
  /\ (vs = [] -> field "dimensions" r = Some (JInt 0))
  /\ (length vs = length (filter nonblank ts) ->
      exists first rest,
        vs = first :: rest
        /\ field "dimensions" r = Some (JLen (length first))
        /\ forall D, Forall (fun v => length v = D) vs ->
                     field "dimensions" r = Some (JLen D)).
Proof.
  intros Hm Hd Hk Hvs r. subst r.
  pose proof (embed_batch_strings h d ts w Hm Hd) as Hrun. cbv zeta in Hrun.
  destruct (filter nonblank ts) as [|t0 kept] eqn:E; [now destruct Hk|].
  rewrite Hvs in Hrun. rewrite Hrun. clear Hrun.
  split; [reflexivity|]. rewrite batch_reply_dimensions.
  split; [reflexivity|]. split; [now intros ->|].
  intros Hlen. destruct vs as [|first rest]; [discriminate Hlen|].
  exists first, rest. split; [reflexivity|]. split; [reflexivity|].
  intros D HD. apply Forall_cons_1 in HD as [<- _]. reflexivity.
Qed.

Lemma batch_dimensions_first_vector_witness :
  status (embed_batch (post (JObj example_batch)) ready_world) = Some 200
  /\ field "dimensions" (embed_batch (post (JObj example_batch)) ready_world)
     = Some (JInt 2).
Proof.
  assert (Hk : filter nonblank example_texts <> [])
    by (rewrite example_kept; discriminate).
  destruct (batch_dimensions_first_vector sample_handle example_batch
              example_texts ready_world
              (map sample_vector (filter nonblank example_texts))
              eq_refl (lookup_singleton_eq _ _) Hk eq_refl)
    as (Hs & Hdim & _).
  split; [exact Hs|]. rewrite Hdim, example_kept. reflexivity.
Defined.

(** ** Text values that are not strings *)

Lemma embed_batch_non_str (h : SentenceTransformer) (d : gmap pystr json)
  l v w :
  model w = Some h -> d !! py "texts" = Some (JArr l) ->
  first_non_str l = Some v ->
  embed_batch (post (JObj d)) w
  = (Val (error_reply (str_exn (no_strip v)) 500),
     add_log (ERROR, Error_generating_batch (no_strip v)) w).
Proof.
  intros Hm Hd Hv. rewrite (embed_batch_list h d l w Hm Hd). now rewrite Hv.
Qed.

(** C10: a [text] value, or an element of [texts], that is not a string is
    never answered with a 400.  With the model ready, [strip] raises on the
    value (the first such element, in a batch), the handler of the endpoint
    catches and logs the exception, and the reply is 500 with the message
    of the exception; with the model not ready the reply is the 500 of the
    readiness gate.  In neither case is [encode] called. *)
Theorem non_string_text_is_500 (w : World) :
  (forall (d : gmap pystr json) (v : json),
      d !! py "text" = Some v -> (forall s, v <> JStr s) ->
      let r := embed_text (post (JObj d)) w in
      reply r
      = Val (error_reply (if is_ready w then str_exn (no_strip v)
                          else py "Model not loaded") 500)
      /\ log (snd r)
         = (if is_ready w
            then log w ++ [(ERROR, Error_generating_embedding (no_strip v))]
            else log w)%list
      /\ encode_calls (snd r) = encode_calls w)
  /\ (forall (d : gmap pystr json) (l : list json) (v : json),
         d !! py "texts" = Some (JArr l) -> In v l -> (forall s, v <> JStr s) ->
         let r := embed_batch (post (JObj d)) w in
         exists v0,
           first_non_str l = Some v0 /\ In v0 l /\ (forall s, v0 <> JStr s)
           /\ reply r
              = Val (error_reply (if is_ready w then str_exn (no_strip v0)
                                  else py "Model not loaded") 500)
           /\ log (snd r)
              = (if is_ready w
                 then log w ++ [(ERROR, Error_generating_batch (no_strip v0))]
                 else log w)%list
           /\ encode_calls (snd r) = encode_calls w).
Proof.
  unfold is_ready. split.
  - intros d v Hd Hv. destruct (model w) as [h|] eqn:Hm.
    + now rewrite (embed_text_non_str h d v w Hm Hd Hv).
    + now rewrite (embed_text_not_ready _ w Hm).
  - intros d l v Hd Hin Hv.
    destruct (first_non_str_exists l v Hin Hv) as [v0 Hv0].
    destruct (first_non_str_some l v0 Hv0) as [Hin0 Hns].
    exists v0. repeat (split; [assumption|]).
    destruct (model w) as [h|] eqn:Hm.
    + now rewrite (embed_batch_non_str h d l v0 w Hm Hd Hv0).
    + now rewrite (embed_batch_not_ready _ w Hm).
Qed.

Lemma non_string_text_is_500_witness :
  status (embed_text (post (JObj number_single)) ready_world) = Some 500
  /\ field "error" (embed_text (post (JObj number_single)) ready_world)
     = Some (JStr (py "'int' object has no attribute 'strip'"))
  /\ status (embed_batch (post (JObj null_in_batch)) ready_world) = Some 500
  /\ field "error" (embed_batch (post (JObj null_in_batch)) ready_world)
     = Some (JStr (py "'NoneType' object has no attribute 'strip'")).
Proof.
  destruct (non_string_text_is_500 ready_world) as [Hsingle Hbatch].
  destruct (Hsingle number_single (JInt 5) (lookup_singleton_eq _ _)
              ltac:(intros s; discriminate)) as (Hr & _).
  destruct (Hbatch null_in_batch [JStr (py "hello"); JNull; JInt 7] (JInt 7)
              (lookup_singleton_eq _ _)
              ltac:(right; right; left; reflexivity)
              ltac:(intros s; discriminate))
    as (v0 & Hv0 & _ & _ & Hb & _).
  injection Hv0 as <-.
  unfold status, field. unfold reply in Hr, Hb. rewrite Hr, Hb.
  unfold error_reply. rewrite !(jsonify_lookup _ "error").
  repeat split; reflexivity.
Defined.

(** ** The model global is written once *)

Create HintDb frame.

Lemma keeps_ret {A : Type} (a : A) : keeps_model (ret a).
Proof. intros w. split; reflexivity. Qed.

Lemma keeps_raise {A : Type} (e : Exn) : keeps_model (@raise A e).
Proof. intros w. split; reflexivity. Qed.

Lemma keeps_bind {A B : Type} (m : Py A) (f : A -> Py B) :
  keeps_model m -> (forall a, keeps_model (f a)) -> keeps_model (bind m f).
Proof.
  intros Hm Hf w. unfold bind. destruct (Hm w) as [H1 H2].
  destruct (m w) as [[a|e] w']; cbn [snd] in *.
  - destruct (Hf a w') as [H3 H4]. split; congruence.
  - split; assumption.
Qed.

Lemma keeps_try {A : Type} (m : Py A) (k : Exn -> Py A) :
  keeps_model m -> (forall e, keeps_model (k e)) -> keeps_model (try_except m k).
Proof.
  intros Hm Hk w. unfold try_except. destruct (Hm w) as [H1 H2].
  destruct (m w) as [[a|e] w']; cbn [snd] in *.
  - split; assumption.
  - destruct (Hk e w') as [H3 H4]. split; congruence.
Qed.

Lemma load_attempts_add_log r w :
  load_attempts (add_log r w)
  = load_attempts w + (if is_loading r then 1 else 0).
Proof.
  unfold load_attempts, add_log. cbn [log].
  rewrite List.filter_app, length_app. cbn [List.filter].
  now destruct (is_loading r).
Qed.

Lemma keeps_read_model : keeps_model read_model.
Proof. intros w. split; reflexivity. Qed.

Lemma keeps_time_time : keeps_model time_time.
Proof. intros w. split; reflexivity. Qed.

Lemma keeps_respond body code : keeps_model (respond body code).
Proof. intros w. split; reflexivity. Qed.

Lemma keeps_logger_info m :
  m <> Loading_model -> keeps_model (logger_info m).
Proof.
  intros Hm w. split; [reflexivity|]. unfold logger_info. cbn [snd].
  rewrite load_attempts_add_log. destruct m; try (cbn; lia). now destruct Hm.
Qed.

Lemma keeps_logger_error m :
  m <> Loading_model -> keeps_model (logger_error m).
Proof.
  intros Hm w. split; [reflexivity|]. unfold logger_error. cbn [snd].
  rewrite load_attempts_add_log. destruct m; try (cbn; lia). now destruct Hm.
Qed.

Lemma keeps_model_encode_str t o : keeps_model (model_encode_str t o).
Proof.
  intros w. unfold model_encode_str. destruct (model w) eqn:Hm;
    [destruct (encode_str _ t o)|]; split; cbn [snd]; try assumption;
    reflexivity.
Qed.

Lemma keeps_model_encode_list ts o : keeps_model (model_encode_list ts o).
Proof.
  intros w. unfold model_encode_list. destruct (model w) eqn:Hm;
    [destruct (encode_list _ ts o)|]; split; cbn [snd]; try assumption;
    reflexivity.
Qed.

Lemma keeps_get_json request : keeps_model (get_json request).
Proof.
  unfold get_json. destruct (body request);
    [apply keeps_ret|apply keeps_raise].
Qed.

Lemma keeps_contains key data : keeps_model (contains key data).
Proof. destruct data; first [apply keeps_ret|apply keeps_raise]. Qed.

Lemma keeps_missing_field key data : keeps_model (missing_field key data).
Proof.
  unfold missing_field. destruct (negb (truthy data)); [apply keeps_ret|].
  apply keeps_bind; [apply keeps_contains|intros; apply keeps_ret].
Qed.

Lemma keeps_getitem data key : keeps_model (getitem data key).
Proof.
  destruct data; cbn [getitem]; try apply keeps_raise.
  destruct (d !! key); [apply keeps_ret|apply keeps_raise].
Qed.

Lemma keeps_method_strip v : keeps_model (method_strip v).
Proof. destruct v; first [apply keeps_ret|apply keeps_raise]. Qed.

Lemma keeps_valid_texts_of texts : keeps_model (valid_texts_of texts).
Proof.
  intros w. rewrite valid_texts_of_spec.
  destruct (first_non_str texts); split; reflexivity.
Qed.

#[export] Hint Resolve keeps_ret keeps_raise keeps_read_model keeps_time_time
  keeps_respond keeps_model_encode_str keeps_model_encode_list keeps_get_json
  keeps_missing_field keeps_getitem keeps_method_strip keeps_valid_texts_of
  : frame.

(** Decompose a handler body along its binds and branches. *)
Ltac frame :=
  repeat first
    [ apply keeps_try; [|intros ?]
    | apply keeps_bind; [|intros ?]
    | apply keeps_logger_info; discriminate
    | apply keeps_logger_error; discriminate
    | solve [auto with frame]
    | match goal with
      | |- keeps_model (match ?x with _ => _ end) => destruct x
      | |- keeps_model (let '(_, _) := ?x in _) => destruct x
      end ].

Lemma keeps_health_check : keeps_model health_check.
Proof. unfold health_check. frame. Qed.

Lemma keeps_root : keeps_model root.
Proof. unfold root. frame. Qed.

Lemma keeps_embed_text request : keeps_model (embed_text request).
Proof. unfold embed_text. frame. Qed.

Lemma keeps_embed_batch request : keeps_model (embed_batch request).
Proof. unfold embed_batch. frame. Qed.

Lemma keeps_serve c : keeps_model (serve c).
Proof.
  destruct c; cbn [serve];
    auto using keeps_root, keeps_health_check, keeps_embed_text,
      keeps_embed_batch.
Qed.

Lemma load_model_run new w :
  load_model new w
  = match new with
    | Val h =>
        (Val true,
         add_log (INFO, Model_loaded)
           (set_model (Some h) (add_log (INFO, Loading_model) w)))
    | Raise e =>
        (Val false,
         add_log (ERROR, Error_loading_model e)
           (add_log (INFO, Loading_model) w))
    end.
Proof. unfold load_model. run_py. now destruct new. Qed.

Lemma load_model_sets new w :
  model (snd (load_model new w))
  = match new with
    | Val h => Some h
    | Raise _ => model w
    end
  /\ load_attempts (snd (load_model new w)) = S (load_attempts w).
Proof.
  rewrite load_model_run. destruct new; cbn [snd]; split; try reflexivity.
  - rewrite load_attempts_add_log. cbn [is_loading snd].
    unfold load_attempts, set_model. cbn [log].
    fold (load_attempts (add_log (INFO, Loading_model) w)).
    rewrite load_attempts_add_log. cbn [is_loading snd].
    unfold load_attempts. lia.
  - rewrite !load_attempts_add_log. cbn [is_loading snd]. lia.
Qed.

Lemma reachable_inv clock p :
  reachable clock p ->
  match phase p with
  | Importing => p = initial clock
  | Serving => load_attempts (world p) = 1
  end.
Proof.
  induction 1 as [|p q Hp IH Hstep]; [reflexivity|].
  destruct Hstep as [w new|w c]; cbn [phase world] in *.
  - injection IH as ->. now destruct (load_model_sets new (initial_world clock)).
  - destruct (keeps_serve c w) as [_ ->]. exact IH.
Qed.

Lemma serve_all_model calls w : model (serve_all calls w) = model w.
Proof.
  revert w. induction calls as [|c calls IH]; intros w; [reflexivity|].
  cbn [serve_all]. rewrite IH. now destruct (keeps_serve c w).
Qed.

Lemma serve_all_reachable clock calls w :
  reachable clock {| phase := Serving; world := w |} ->
  reachable clock {| phase := Serving; world := serve_all calls w |}.
Proof.
  revert w. induction calls as [|c calls IH]; intros w Hw; [exact Hw|].
  cbn [serve_all]. apply IH. eapply reach_step; [exact Hw|apply step_serve].
Qed.

Lemma serve_all_snoc calls c w :
  serve_all (calls ++ [c])%list w = snd (serve c (serve_all calls w)).
Proof.
  revert w. induction calls as [|c0 calls IH]; intros w; [reflexivity|].
  cbn [serve_all app]. apply IH.
Qed.

Lemma boot_model new clock : model (boot new clock) = loaded new.
Proof.
  unfold boot. destruct (load_model_sets new (initial_world clock)) as [-> _].
  now destruct new.
Qed.

(** Every reachable state is the initial one, or the state after the one
    load and some sequence of requests. *)
Lemma reachable_shape clock p :
  reachable clock p ->
  match phase p with
  | Importing => p = initial clock
  | Serving => exists new calls, world p = serve_all calls (boot new clock)
  end.
Proof.
  induction 1 as [|p q Hp IH Hstep]; [reflexivity|].
  destruct Hstep as [w new|w c]; cbn [phase world] in *.
  - injection IH as ->. now exists new, [].
  - destruct IH as (new & calls & ->). exists new, (calls ++ [c])%list.
    now rewrite serve_all_snoc.
Qed.

(** C6: the readiness state is written once.  A process starts in
    [Loading].  Its one step out of the import phase is the call of
    [load_model]: for every outcome of the constructor it leaves the process
    [Ready], with the handle in [model], when the constructor returned one,
    and [Failed], with [model] still [None], when it raised.  Every reachable
    serving state is the state after that one load and some requests, holds
    what the load left in [model], and has seen exactly one load attempt;
    every later step serves a request and changes neither [model] nor the
    state. *)
Theorem model_state_written_once (clock : nat -> float) :
  model_state (initial clock) = Loading
  /\ (forall new : Outcome SentenceTransformer,
         let q := {| phase := Serving; world := boot new clock |} in
         step (initial clock) q
         /\ model (world q) = loaded new
         /\ model_state q = outcome_state new)
  /\ (forall p : Process,
         reachable clock p ->
         (phase p = Importing -> p = initial clock)
         /\ (phase p = Serving ->
             load_attempts (world p) = 1
             /\ exists new calls,
                 world p = serve_all calls (boot new clock)
                 /\ model (world p) = loaded new
                 /\ model_state p = outcome_state new)
         /\ (forall q, step p q ->
               phase q = Serving
               /\ (phase p = Importing ->
                   exists new,
                     q = {| phase := Serving; world := boot new clock |})
               /\ (phase p = Serving ->
                   (exists c, world q = snd (serve c (world p)))
                   /\ model (world q) = model (world p)
                   /\ model_state q = model_state p))).
Proof.
  split; [reflexivity|]. split.
  - intros new. cbv zeta. cbn [world]. split; [apply step_load|].
    split; [apply boot_model|].
    unfold model_state. cbn [phase world]. rewrite boot_model.
    now destruct new.
  - intros p Hp. pose proof (reachable_inv clock p Hp) as Hinv.
    pose proof (reachable_shape clock p Hp) as Hshape.
    split; [|split].
    + intros Hph. now rewrite Hph in Hinv.
    + intros Hph. rewrite Hph in Hinv, Hshape. split; [exact Hinv|].
      destruct Hshape as (new & calls & Hw). exists new, calls.
      assert (Hm : model (world p) = loaded new)
        by (rewrite Hw, serve_all_model; apply boot_model).
      split; [exact Hw|]. split; [exact Hm|].
      unfold model_state. rewrite Hph, Hm. now destruct new.
    + intros q Hstep. destruct Hstep as [w new|w c]; cbn [phase world] in *.
      * split; [reflexivity|]. split; [|discriminate].
        intros _. injection Hinv as ->. now exists new.
      * split; [reflexivity|]. split; [discriminate|]. intros _.
        destruct (keeps_serve c w) as [Hm _].
        split; [now exists c|]. split; [exact Hm|].
        unfold model_state. cbn [phase world]. now rewrite Hm.
Qed.

Lemma sample_run_reachable : reachable (fun _ => PrimFloat.zero) sample_run.
Proof.
  unfold sample_run. eapply reach_step; [|apply step_serve].
  eapply reach_step; [apply reach_initial|]. apply step_load.
Defined.

Lemma model_state_written_once_witness :
  model_state sample_run = Ready
  /\ load_attempts (world sample_run) = 1
  /\ model_state
       {| phase := Serving;
          world := boot (Raise (ExternalError (py "no such model")))
                     (fun _ => PrimFloat.zero) |} = Failed.
Proof.
  destruct (model_state_written_once (fun _ => PrimFloat.zero))
    as (_ & Hload & Hreach).
  destruct (Hreach sample_run sample_run_reachable) as (_ & Hserving & _).
  destruct (Hserving eq_refl) as [Hloads _].
  destruct (Hload (Raise (ExternalError (py "no such model"))))
    as (_ & _ & Hfailed).
  split; [reflexivity|]. split; [exact Hloads|exact Hfailed].
Defined.

(** * Further properties of the endpoints *)

(** ** Every way a request can end *)

Lemma missing_field_world key data w :
  snd (missing_field key data w) = w.
Proof.
  unfold missing_field. destruct (negb (truthy data)); [reflexivity|].
  unfold bind. destruct data; reflexivity.
Qed.

Lemma getitem_world data key w : snd (getitem data key w) = w.
Proof.
  destruct data; try reflexivity. cbn [getitem]. now destruct (d !! key).
Qed.

Lemma method_strip_cases v w :
  (exists t, v = JStr t /\ method_strip v w = (Val (t, strip t), w))
  \/ ((forall t, v <> JStr t) /\ method_strip v w = (Raise (no_strip v), w)).
Proof.
  destruct v; try (right; split; [discriminate|reflexivity]).
  left. now exists s.
Qed.

Lemma embed_text_answered request w :
  answered w Single (embed_text request w).
Proof.
  destruct (model w) as [h|] eqn:Hm;
    [|rewrite (embed_text_not_ready request w Hm); now constructor].
  unfold embed_text, try_except, bind, read_model, get_json. rewrite Hm.
  destruct (body request) as [data|e]; [|apply (answered_caught w Single)].
  unfold ret at 1. cbv beta iota.
  pose proof (missing_field_world (py "text") data w) as Hw.
  destruct (missing_field (py "text") data w) as [[[|]|e] w1];
    cbn [snd] in Hw; subst w1; [apply (answered_rejected w Single)| |apply (answered_caught w Single)].
  pose proof (getitem_world data (py "text") w) as Hw.
  destruct (getitem data (py "text") w) as [[v|e] w1];
    cbn [snd] in Hw; subst w1; [|apply (answered_caught w Single)].
  destruct (method_strip_cases v w) as [(t & -> & ->)|[_ ->]];
    [|apply (answered_caught w Single)].
  destruct (negb (truthy (JStr (strip t)))); [apply (answered_rejected w Single)|].
  unfold time_time, model_encode_str, logger_info, respond, ret.
  cbv beta iota. cbn [model tick add_call]. rewrite Hm.
  destruct (encode_str h t single_options) as [v|e];
    [apply answered_single|apply (answered_encode_failed w Single)].
Qed.

Lemma embed_batch_answered request w :
  answered w Batch (embed_batch request w).
Proof.
  destruct (model w) as [h|] eqn:Hm;
    [|rewrite (embed_batch_not_ready request w Hm); now constructor].
  unfold embed_batch, try_except, bind, read_model, get_json. rewrite Hm.
  destruct (body request) as [data|e]; [|apply (answered_caught w Batch)].
  unfold ret at 1. cbv beta iota.
  pose proof (missing_field_world (py "texts") data w) as Hw.
  destruct (missing_field (py "texts") data w) as [[[|]|e] w1];
    cbn [snd] in Hw; subst w1; [apply (answered_rejected w Batch)| |apply (answered_caught w Batch)].
  pose proof (getitem_world data (py "texts") w) as Hw.
  destruct (getitem data (py "texts") w) as [[v|e] w1];
    cbn [snd] in Hw; subst w1; [|apply (answered_caught w Batch)].
  destruct (negb (isinstance_list v)); [apply (answered_rejected w Batch)|].
  rewrite valid_texts_of_spec.
  destruct (first_non_str (list_items v)); [apply (answered_caught w Batch)|].
  destruct (negb (truthy_list (filter nonblank (strings_of (list_items v)))));
    [apply (answered_rejected w Batch)|].
  unfold time_time, model_encode_list, logger_info, respond, ret.
  cbv beta iota. cbn [model tick add_call]. rewrite Hm.
  destruct (encode_list h _ batch_options) as [vs|e];
    [apply answered_batch|apply (answered_encode_failed w Batch)].
Qed.

Lemma handler_answered ep request w : answered w ep (handler ep request w).
Proof.
  destruct ep; [apply embed_text_answered|apply embed_batch_answered].
Qed.

Lemma status_error_reply msg code w :
  status (Val (error_reply msg code), w) = Some code.
Proof. reflexivity. Qed.

(** Both embedding endpoints always produce a reply: whatever the request
    and the state, no exception leaves the handler, and the status code is
    200, 400 or 500. *)
Theorem handlers_always_answer (ep : Endpoint) (request : Request) (w : World) :
  exists body code,
    reply (handler ep request w) = Val (body, code)
    /\ (code = 200 \/ code = 400 \/ code = 500).
Proof.
  destruct (handler_answered ep request w); unfold reply; cbn [fst];
    eexists; eexists; (split; [reflexivity|]); auto.
Qed.

(** A request answered 400 has no effect: the world after it (model, clock
    position, log, trace of model calls) is the world before it. *)
Theorem rejected_request_changes_nothing (ep : Endpoint) (request : Request)
  (w : World) :
  status (handler ep request w) = Some 400 ->
  snd (handler ep request w) = w.
Proof.
  intros Hs. destruct (handler_answered ep request w);
    try reflexivity; discriminate Hs.
Qed.

Lemma rejected_request_changes_nothing_witness :
  snd (embed_text (post (JObj blank_single)) ready_world) = ready_world.
Proof.
  apply (rejected_request_changes_nothing Single (post (JObj blank_single))
           ready_world).
  vm_compute. reflexivity.
Defined.

Lemma answered_effects w ep r :
  answered w ep r ->
  (exists calls records,
      encode_calls (snd r) = (encode_calls w ++ calls)%list
      /\ length calls <= 1
      /\ log (snd r) = (log w ++ records)%list
      /\ length records <= 1)
  /\ clock_reads w <= clock_reads (snd r) <= clock_reads w + 2.
Proof.
  intros H. destruct H as [ep _|ep msg|ep e|ep e c|v t|vs ts]; cbn [snd].
  - split; [|lia]. exists [], []. rewrite !app_nil_r. cbn. repeat split; lia.
  - split; [|lia]. exists [], []. rewrite !app_nil_r. cbn. repeat split; lia.
  - split; [|cbn; lia]. exists [], [error_record ep e].
    rewrite app_nil_r. cbn. repeat split; lia.
  - split; [|cbn; lia]. exists [c], [error_record ep e].
    cbn. repeat split; lia.
  - split; [|cbn; lia]. eexists [_], [_]. cbn. repeat split; lia.
  - split; [|cbn; lia]. eexists [_], [_]. cbn. repeat split; lia.
Qed.

(** Serving one request calls the model at most once and writes at most one
    log record; the trace and the log only grow, the clock is read at most
    twice, and the two [GET] routes leave the world as it was. *)
Theorem one_request_one_encode_call (c : Call) (w : World) :
  let w' := snd (serve c w) in
  (exists calls records,
      encode_calls w' = (encode_calls w ++ calls)%list
      /\ length calls <= 1
      /\ log w' = (log w ++ records)%list
      /\ length records <= 1)
  /\ clock_reads w <= clock_reads w' <= clock_reads w + 2
  /\ (c = GET_root \/ c = GET_health -> w' = w).
Proof.
  cbv zeta. destruct c as [| |request|request]; cbn [serve].
  - destruct (answered_effects w Single _ (answered_rejected w Single []))
      as [H1 H2].
    change (snd (root w)) with w. now repeat split.
  - destruct (answered_effects w Single _ (answered_rejected w Single []))
      as [H1 H2].
    rewrite health_check_run. now repeat split.
  - destruct (answered_effects w Single _ (embed_text_answered request w))
      as [H1 H2].
    repeat split; try assumption; try (apply H2); intros [H|H]; discriminate H.
  - destruct (answered_effects w Batch _ (embed_batch_answered request w))
      as [H1 H2].
    repeat split; try assumption; try (apply H2); intros [H|H]; discriminate H.
Qed.

Lemma embed_text_200 request w :
  status (embed_text request w) = Some 200 ->
  exists v, fst (embed_text request w) = Val (single_reply v (elapsed w)).
Proof.
  intros Hs. pose proof (embed_text_answered request w) as H.
  remember (embed_text request w) as r eqn:Er. remember Single as ep eqn:Eep.
  destruct H; try discriminate Hs; try discriminate Eep. now exists v.
Qed.

Lemma embed_batch_200 request w :
  status (embed_batch request w) = Some 200 ->
  exists vs, fst (embed_batch request w) = Val (batch_reply vs (elapsed w)).
Proof.
  intros Hs. pose proof (embed_batch_answered request w) as H.
  remember (embed_batch request w) as r eqn:Er. remember Batch as ep eqn:Eep.
  destruct H; try discriminate Hs; try discriminate Eep. now exists vs.
Qed.

(** In every 200 reply, the reported sizes are those of the arrays in the
    same reply, whatever the model returned: [dimensions] of [/embed] is the
    length of [embedding]; [count] of [/embed/batch] is the length of
    [embeddings], and its [dimensions] the length of the first row, or 0
    when there is no row. *)
Theorem reply_sizes_match_arrays (request : Request) (w : World) :
  (status (embed_text request w) = Some 200 ->
   exists items,
     field "embedding" (embed_text request w) = Some (JArr items)
     /\ field "dimensions" (embed_text request w) = Some (JLen (length items)))
  /\ (status (embed_batch request w) = Some 200 ->
      exists rows,
        field "embeddings" (embed_batch request w) = Some (JArr rows)
        /\ field "count" (embed_batch request w) = Some (JLen (length rows))
        /\ match rows with
           | [] => field "dimensions" (embed_batch request w) = Some (JInt 0)
           | first :: _ =>
               exists items,
                 first = JArr items
                 /\ field "dimensions" (embed_batch request w)
                    = Some (JLen (length items))
           end).
Proof.
  split; intros Hs.
  - destruct (embed_text_200 request w Hs) as [v Hv].
    exists (map JFloat v). unfold field. rewrite Hv. unfold single_reply.
    rewrite !jsonify_lookup. cbn [assoc String.eqb].
    now rewrite length_map.
  - destruct (embed_batch_200 request w Hs) as [vs Hv].
    exists (map tolist vs). unfold field. rewrite Hv. unfold batch_reply.
    rewrite !jsonify_lookup.
    split; [reflexivity|]. split; [cbn; now rewrite length_map|].
    destruct vs as [|first rest]; [reflexivity|].
    exists (map JFloat first). split; [reflexivity|].
    cbn. now rewrite length_map.
Qed.

Lemma reply_sizes_match_arrays_witness :
  (exists items,
      field "embedding" (embed_text (post (JObj example_single)) ready_world)
      = Some (JArr items)
      /\ field "dimensions" (embed_text (post (JObj example_single)) ready_world)
         = Some (JLen (length items)))
  /\ (exists rows,
         field "embeddings" (embed_batch (post (JObj pair_batch)) ready_world)
         = Some (JArr rows)
         /\ field "count" (embed_batch (post (JObj pair_batch)) ready_world)
            = Some (JLen (length rows))).
Proof.
  destruct (reply_sizes_match_arrays (post (JObj example_single)) ready_world)
    as [Hsingle _].
  destruct (reply_sizes_match_arrays (post (JObj pair_batch)) ready_world)
    as [_ Hbatch].
  split.
  - apply Hsingle. vm_compute. reflexivity.
  - destruct Hbatch as (rows & H1 & H2 & _); [vm_compute; reflexivity|].
    exists rows. now split.
Defined.

(** ** Bodies that are not what the endpoint expects *)

Lemma ready_handle w : is_ready w = true -> exists h, model w = Some h.
Proof. apply is_ready_true. Qed.

(** With the model ready, a request whose body cannot be read
    ([request.get_json()] raises) is answered 500 with the message of the
    exception, on both endpoints; the exception is logged and the model is
    not called. *)
Theorem unreadable_body_is_500 (ep : Endpoint) (request : Request)
  (e : Exn) (w : World) :
  is_ready w = true ->
  body request = Raise e ->
  handler ep request w
  = (Val (error_reply (str_exn e) 500), add_log (error_record ep e) w).
Proof.
  intros Hr Hb. destruct (ready_handle w Hr) as [h Hm].
  destruct ep; cbn [handler]; [unfold embed_text|unfold embed_batch];
    run_py; run_with Hm; now rewrite Hb.
Qed.

Lemma unreadable_body_is_500_witness :
  status (embed_batch bad_request ready_world) = Some 500
  /\ field "error" (embed_batch bad_request ready_world)
     = Some (JStr (py "400 Bad Request"))
  /\ encode_calls (snd (embed_batch bad_request ready_world)) = [].
Proof.
  pose proof (unreadable_body_is_500 Batch bad_request
                (ExternalError (py "400 Bad Request")) ready_world
                eq_refl eq_refl) as H.
  cbn [handler] in H. rewrite H. unfold error_reply. unfold field. cbn [fst].
  rewrite (jsonify_lookup _ "error"). now repeat split.
Defined.

(** With the model ready, a body that Python counts as false ([null],
    [false], [0], [0.0], the empty string, list or object) is answered 400
    with the endpoint's "No text(s) provided", without any effect. *)
Theorem falsy_body_is_missing_field (ep : Endpoint) (data : json) (w : World) :
  is_ready w = true ->
  truthy data = false ->
  handler ep (post data) w
  = (Val (error_reply (py (missing_message ep)) 400), w).
Proof.
  intros Hr Hd. destruct (ready_handle w Hr) as [h Hm].
  destruct ep; cbn [handler]; [unfold embed_text|unfold embed_batch];
    run_py; run_with Hm; unfold missing_field; now rewrite Hd.
Qed.

Lemma falsy_body_is_missing_field_witness :
  embed_text (post JNull) ready_world
  = (Val (error_reply (py "No text provided") 400), ready_world)
  /\ embed_batch (post (JArr [])) ready_world
     = (Val (error_reply (py "No texts provided") 400), ready_world).
Proof.
  split.
  - exact (falsy_body_is_missing_field Single JNull ready_world
             eq_refl eq_refl).
  - exact (falsy_body_is_missing_field Batch (JArr []) ready_world
             eq_refl eq_refl).
Defined.

(** With the model ready, a body that is not a JSON object is not always
    rejected with 400.  A non-zero number or [true] makes the membership test
    raise, so the reply is 500 with the [TypeError] message.  A list is
    answered 400 unless the key itself is one of its elements, and a string
    unless the key occurs in it; in those cases the subscript raises and the
    reply is 500. *)
Theorem non_object_body_status (ep : Endpoint) (w : World) :
  is_ready w = true ->
  (forall data,
      is_scalar data = true -> truthy data = true ->
      let e := TypeError (py "argument of type '" ++ type_name data
                          ++ py "' is not iterable") in
      handler ep (post data) w
      = (Val (error_reply (str_exn e) 500), add_log (error_record ep e) w))
  /\ (forall l,
         status (handler ep (post (JArr l)) w)
         = Some (if existsb (str_eq (py (input_key ep))) l then 500 else 400))
  /\ (forall s,
         status (handler ep (post (JStr s)) w)
         = Some (if str_contains (py (input_key ep)) s then 500 else 400)).
Proof.
  intros Hr. destruct (ready_handle w Hr) as [h Hm]. split; [|split].
  - intros data Hsc Ht.
    destruct ep; cbn [handler input_key error_record];
      [unfold embed_text|unfold embed_batch];
      run_py; run_with Hm; unfold missing_field; rewrite Ht; cbn [negb];
      destruct data; try discriminate Hsc; reflexivity.
  - intros l.
    destruct ep; cbn [handler input_key];
      [unfold embed_text|unfold embed_batch];
      run_py; run_with Hm; unfold missing_field;
      (destruct l as [|x l]; [reflexivity|]);
      cbn [truthy length Nat.eqb negb]; unfold bind, contains, ret;
      cbv beta iota;
      destruct (existsb _ (x :: l)); reflexivity.
  - intros s.
    destruct ep; cbn [handler input_key];
      [unfold embed_text|unfold embed_batch];
      run_py; run_with Hm; unfold missing_field;
      (destruct s as [|c s]; [reflexivity|]);
      cbn [truthy length Nat.eqb negb]; unfold bind, contains, ret;
      cbv beta iota;
      destruct (str_contains _ (c :: s)); reflexivity.
Qed.

Lemma non_object_body_status_witness :
  status (embed_text (post (JInt 5)) ready_world) = Some 500
  /\ status (embed_text (post (JArr [JStr (py "text")])) ready_world) = Some 500
  /\ status (embed_text (post (JArr [JStr (py "hello")])) ready_world)
     = Some 400
  /\ status (embed_batch (post (JStr (py "my texts"))) ready_world) = Some 500.
Proof.
  destruct (non_object_body_status Single ready_world eq_refl)
    as (Hscalar & Hlist & _).
  destruct (non_object_body_status Batch ready_world eq_refl)
    as (_ & _ & Hstr).
  split; [|split; [|split]].
  - pose proof (Hscalar (JInt 5) eq_refl eq_refl) as H. cbv zeta in H.
    cbn [handler] in H. now rewrite H.
  - exact (Hlist [JStr (py "text")]).
  - exact (Hlist [JStr (py "hello")]).
  - exact (Hstr (py "my texts")).
Defined.

(** With the model ready, a [text] made only of whitespace characters (the
    ones [str.isspace] accepts, the no-break space among them), the empty
    text included, is answered 400 "Empty text provided" without effect. *)
Theorem blank_text_is_rejected (d : gmap pystr json) (t : pystr) (w : World) :
  is_ready w = true ->
  d !! py "text" = Some (JStr t) ->
  forallb isspace t = true ->
  embed_text (post (JObj d)) w
  = (Val (error_reply (py "Empty text provided") 400), w).
Proof.
  intros Hr Hd Ht. destruct (ready_handle w Hr) as [h Hm].
  apply (embed_text_blank h d t w Hm Hd).
  unfold nonblank. intros Hn. now apply Hn, strip_nil_iff.
Qed.

Lemma blank_text_is_rejected_witness :
  embed_text (post (JObj blank_single)) ready_world
  = (Val (error_reply (py "Empty text provided") 400), ready_world).
Proof.
  apply (blank_text_is_rejected blank_single blank_text ready_world eq_refl).
  - apply lookup_singleton_eq.
  - reflexivity.
Defined.

(** With the model ready, a [texts] member that is not a list (a string, a
    number, [null], an object) is answered 400 "Texts must be a list"
    without effect: a lone string is not taken as a batch of one. *)
Theorem texts_must_be_a_list (d : gmap pystr json) (v : json) (w : World) :
  is_ready w = true ->
  d !! py "texts" = Some v ->
  (forall l, v <> JArr l) ->
  embed_batch (post (JObj d)) w
  = (Val (error_reply (py "Texts must be a list") 400), w).
Proof.
  intros Hr Hd Hv. destruct (ready_handle w Hr) as [h Hm].
  apply (embed_batch_not_list h d v w Hm Hd).
  destruct v; try reflexivity. now destruct (Hv l).
Qed.

Lemma texts_must_be_a_list_witness :
  embed_batch (post (JObj string_as_texts)) ready_world
  = (Val (error_reply (py "Texts must be a list") 400), ready_world).
Proof.
  apply (texts_must_be_a_list string_as_texts (JStr (py "hello")) ready_world
           eq_refl).
  - apply lookup_singleton_eq.
  - intros l. discriminate.
Defined.

(** ** Inference errors and timing *)

(** When [encode] raises on a valid request, the reply is 500 with the
    message of the exception, on both endpoints.  The call is in the trace,
    the exception is logged as an error, and the clock was read once: the
    end time is never taken. *)
Theorem inference_error_is_500 (h : SentenceTransformer) (w : World) :
  model w = Some h ->
  (forall (d : gmap pystr json) (t : pystr) (e : Exn),
      d !! py "text" = Some (JStr t) -> nonblank t ->
      encode_str h t single_options = Raise e ->
      let r := embed_text (post (JObj d)) w in
      reply r = Val (error_reply (str_exn e) 500)
      /\ encode_calls (snd r) = (encode_calls w ++ [(One t, single_options)])%list
      /\ log (snd r)
         = (log w ++ [(ERROR, Error_generating_embedding e)])%list
      /\ clock_reads (snd r) = S (clock_reads w))
  /\ (forall (d : gmap pystr json) (ts : list pystr) (e : Exn),
         d !! py "texts" = Some (JArr (map JStr ts)) ->
         filter nonblank ts <> [] ->
         encode_list h (filter nonblank ts) batch_options = Raise e ->
         let r := embed_batch (post (JObj d)) w in
         reply r = Val (error_reply (str_exn e) 500)
         /\ encode_calls (snd r)
            = (encode_calls w ++ [(Many (filter nonblank ts), batch_options)])%list
         /\ log (snd r) = (log w ++ [(ERROR, Error_generating_batch e)])%list
         /\ clock_reads (snd r) = S (clock_reads w)).
Proof.
  intros Hm. split.
  - intros d t e Hd Ht He. cbv zeta.
    rewrite (embed_text_valid h d t w Hm Hd Ht). cbv zeta. rewrite He.
    now repeat split.
  - intros d ts e Hd Hk He. cbv zeta.
    rewrite (embed_batch_strings h d ts w Hm Hd). cbv zeta.
    destruct (filter nonblank ts) as [|t0 kept]; [now destruct Hk|].
    rewrite He. now repeat split.
Qed.

Lemma inference_error_is_500_witness :
  reply (embed_text (post (JObj example_single)) failing_world)
  = Val (error_reply (py "out of memory") 500)
  /\ clock_reads (snd (embed_text (post (JObj example_single)) failing_world))
     = 1
  /\ reply (embed_batch (post (JObj example_batch)) failing_world)
     = Val (error_reply (py "out of memory") 500).
Proof.
  destruct (inference_error_is_500 failing_handle failing_world eq_refl)
    as [Hsingle Hbatch].
  destruct (Hsingle example_single padded_text
              (ExternalError (py "out of memory"))
              (lookup_singleton_eq _ _) nonblank_padded eq_refl)
    as (Hr & _ & _ & Hc).
  destruct (Hbatch example_batch example_texts
              (ExternalError (py "out of memory"))
              (lookup_singleton_eq _ _)) as (Hb & _).
  - rewrite example_kept. discriminate.
  - reflexivity.
  - split; [exact Hr|]. split; [exact Hc|exact Hb].
Defined.

(** In a successful reply, [processing_time] is the second clock reading
    minus the first, the two readings taken immediately around the [encode]
    call; the request reads the clock exactly twice and logs one record,
    with the length of the text as it was sent (single) or the number of
    vectors returned (batch). *)
Theorem processing_time_spans_encode (h : SentenceTransformer) (w : World) :
  model w = Some h ->
  (forall (d : gmap pystr json) (t : pystr) (v : list float),
      d !! py "text" = Some (JStr t) -> nonblank t ->
      encode_str h t single_options = Val v ->
      let r := embed_text (post (JObj d)) w in
      field "processing_time" r
      = Some (JFloat (PrimFloat.sub (wall_clock w (S (clock_reads w)))
                        (wall_clock w (clock_reads w))))
      /\ clock_reads (snd r) = S (S (clock_reads w))
      /\ log (snd r)
         = (log w ++ [(INFO, Generated_embedding (length t) (elapsed w))])%list)
  /\ (forall (d : gmap pystr json) (ts : list pystr) (vs : list (list float)),
         d !! py "texts" = Some (JArr (map JStr ts)) ->
         filter nonblank ts <> [] ->
         encode_list h (filter nonblank ts) batch_options = Val vs ->
         let r := embed_batch (post (JObj d)) w in
         field "processing_time" r
         = Some (JFloat (PrimFloat.sub (wall_clock w (S (clock_reads w)))
                           (wall_clock w (clock_reads w))))
         /\ clock_reads (snd r) = S (S (clock_reads w))
         /\ log (snd r)
            = (log w ++ [(INFO, Generated_embeddings (length vs) (elapsed w))])%list).
Proof.
  intros Hm. split.
  - intros d t v Hd Ht Hv. cbv zeta.
    rewrite (embed_text_valid h d t w Hm Hd Ht). cbv zeta. rewrite Hv.
    unfold single_reply. rewrite field_jsonify. now repeat split.
  - intros d ts vs Hd Hk Hv. cbv zeta.
    rewrite (embed_batch_strings h d ts w Hm Hd). cbv zeta.
    destruct (filter nonblank ts) as [|t0 kept]; [now destruct Hk|].
    rewrite Hv. unfold batch_reply. rewrite field_jsonify. now repeat split.
Qed.

Lemma processing_time_spans_encode_witness :
  field "processing_time"
    (embed_text (post (JObj example_single)) ready_world)
  = Some (JFloat 2%float)
  /\ log (snd (embed_text (post (JObj example_single)) ready_world))
     = [(INFO, Generated_embedding 15 2%float)].
Proof.
  destruct (processing_time_spans_encode sample_handle ready_world eq_refl)
    as [Hsingle _].
  destruct (Hsingle example_single padded_text (sample_vector padded_text)
              (lookup_singleton_eq _ _) nonblank_padded eq_refl)
    as (Ht & _ & Hl).
  split; [exact Ht|exact Hl].
Defined.

(** ** The load outcome is permanent *)

Lemma serve_not_ready c w : model w = None -> snd (serve c w) = w.
Proof.
  intros Hm. destruct c as [| |request|request]; cbn [serve].
  - reflexivity.
  - now rewrite health_check_run.
  - now rewrite (embed_text_not_ready request w Hm).
  - now rewrite (embed_batch_not_ready request w Hm).
Qed.

Lemma serve_all_not_ready calls w : model w = None -> serve_all calls w = w.
Proof.
  intros Hm. induction calls as [|c calls IH]; [reflexivity|].
  cbn [serve_all]. now rewrite (serve_not_ready c w Hm).
Qed.

(** Whatever requests are served after the import, [model] is what the one
    load left there.  After a failed load nothing a request does has any
    effect: both embedding endpoints answer 500 "Model not loaded",
    [/health] answers 500, and the model is never called.  After a
    successful load [/health] answers 200 from then on. *)
Theorem load_outcome_is_permanent (clock : nat -> float)
  (new : Outcome SentenceTransformer) (calls : list Call) :
  let w := serve_all calls (boot new clock) in
  reachable clock {| phase := Serving; world := w |}
  /\ model w = loaded new
  /\ match new with
     | Raise e =>
         w = boot new clock
         /\ encode_calls w = []
         /\ (forall ep request,
                reply (handler ep request w)
                = Val (error_reply (py "Model not loaded") 500))
         /\ reply (health_check w) = Val unhealthy_reply
     | Val h => reply (health_check w) = Val healthy_reply
     end.
Proof.
  cbv zeta.
  assert (Hm : model (serve_all calls (boot new clock)) = loaded new).
  { rewrite serve_all_model. unfold boot.
    destruct (load_model_sets new (initial_world clock)) as [-> _].
    now destruct new. }
  split; [|split; [exact Hm|]].
  - apply serve_all_reachable. unfold boot.
    eapply reach_step; [apply reach_initial|apply step_load].
  - destruct new as [h|e].
    + rewrite health_check_run. unfold is_ready. now rewrite Hm.
    + assert (Hb : model (boot (Raise e) clock) = None).
      { rewrite serve_all_model in Hm. exact Hm. }
      rewrite (serve_all_not_ready calls _ Hb).
      split; [reflexivity|]. split; [reflexivity|]. split.
      * intros ep request.
        destruct ep; cbn [handler];
          [rewrite (embed_text_not_ready request _ Hb)
          |rewrite (embed_batch_not_ready request _ Hb)]; reflexivity.
      * rewrite health_check_run. unfold is_ready. now rewrite Hb.
Qed.

(** ** The root route *)

Lemma root_status_field w :
  field "status" (root w)
  = Some (JStr (py (if match model w with
                       | None => false
                       | Some h => negb (Nat.eqb (n_modules h) 0)
                       end
                    then "ready" else "loading"))).
Proof. unfold root, bind, read_model, respond, ret. apply field_jsonify. Qed.

(** [GET /] always answers 200 and changes nothing.  Its [status] member is
    "ready" or "loading", never an error: it is "loading" whenever the model
    is not loaded, also after a failed load.  When it says "ready",
    [/health] answers 200.  Its [dimensions] member is the constant 768. *)
Theorem root_ready_implies_healthy (w : World) :
  status (root w) = Some 200
  /\ snd (root w) = w
  /\ (field "status" (root w) = Some (JStr (py "ready"))
      \/ field "status" (root w) = Some (JStr (py "loading")))
  /\ (field "status" (root w) = Some (JStr (py "ready")) ->
      is_ready w = true /\ status (health_check w) = Some 200)
  /\ (is_ready w = false ->
      field "status" (root w) = Some (JStr (py "loading")))
  /\ field "dimensions" (root w) = Some (JInt 768).
Proof.
  split; [reflexivity|]. split; [reflexivity|].
  rewrite root_status_field, health_check_run. unfold is_ready.
  destruct (model w) as [h|].
  - destruct (negb (Nat.eqb (n_modules h) 0)).
    + split; [now left|]. split; [now split|]. split; [discriminate|].
      unfold root, bind, read_model, respond, ret. apply field_jsonify.
    + split; [now right|]. split; [now split|]. split; [reflexivity|].
      unfold root, bind, read_model, respond, ret. apply field_jsonify.
  - split; [now right|]. split.
    + intros H. assert (E : py "loading" = py "ready") by congruence.
      apply py_inj in E. discriminate E.
    + split; [reflexivity|].
      unfold root, bind, read_model, respond, ret. apply field_jsonify.
Qed.

Lemma root_ready_implies_healthy_witness :
  field "status" (root ready_world) = Some (JStr (py "ready"))
  /\ status (health_check ready_world) = Some 200
  /\ field "status" (root cold_world) = Some (JStr (py "loading")).
Proof.
  destruct (root_ready_implies_healthy ready_world)
    as (_ & _ & _ & Hready & _).
  destruct (root_ready_implies_healthy cold_world)
    as (_ & _ & _ & _ & Hcold & _).
  assert (Hs : field "status" (root ready_world) = Some (JStr (py "ready")))
    by (rewrite root_status_field; reflexivity).
  split; [exact Hs|]. split; [apply (Hready Hs)|apply Hcold; reflexivity].
Defined.

(** ** What a reply depends on *)

(** An endpoint reads only its own member of the body: two objects that
    carry the same value under it get the same reply and have the same
    effect, whatever else they contain. *)
Theorem other_members_are_ignored (ep : Endpoint) (d d' : gmap pystr json)
  (v : json) (w : World) :
  d !! py (input_key ep) = Some v ->
  d' !! py (input_key ep) = Some v ->
  handler ep (post (JObj d)) w = handler ep (post (JObj d')) w.
Proof.
  intros Hd Hd'. destruct (model w) as [h|] eqn:Hm.
  - destruct ep; cbn [handler input_key] in *;
      [unfold embed_text|unfold embed_batch];
      run_py; run_with Hm;
      rewrite (missing_field_present d _ v w Hd);
      rewrite (missing_field_present d' _ v w Hd');
      cbv beta iota; now rewrite Hd, Hd'.
  - destruct ep; cbn [handler].
    + now rewrite !(embed_text_not_ready _ w Hm).
    + now rewrite !(embed_batch_not_ready _ w Hm).
Qed.

Lemma other_members_are_ignored_witness :
  embed_text (post (JObj crowded_single)) ready_world
  = embed_text (post (JObj example_single)) ready_world.
Proof.
  apply (other_members_are_ignored Single crowded_single example_single
           (JStr padded_text) ready_world).
  - vm_compute. reflexivity.
  - apply lookup_singleton_eq.
Defined.

(** ** What the log tells *)

(** With the model ready, every 500 reply of an embedding endpoint comes from
    a caught exception: its [error] member is the message of that exception,
    and the request appended exactly one error record carrying it to the
    log.  (The 500 of the readiness gate, by contrast, leaves no record.) *)
Theorem every_caught_500_is_logged (ep : Endpoint) (request : Request)
  (w : World) :
  is_ready w = true ->
  status (handler ep request w) = Some 500 ->
  exists e,
    reply (handler ep request w) = Val (error_reply (str_exn e) 500)
    /\ log (snd (handler ep request w)) = (log w ++ [error_record ep e])%list.
Proof.
  intros Hr Hs. apply is_ready_true in Hr as [h Hm].
  destruct (handler_answered ep request w) as [ep Hn| | | | |];
    try discriminate Hs.
  - rewrite Hm in Hn. discriminate Hn.
  - now exists e.
  - now exists e.
Qed.

Lemma every_caught_500_is_logged_witness :
  exists e,
    reply (embed_text (post (JObj number_single)) ready_world)
    = Val (error_reply (str_exn e) 500)
    /\ log (snd (embed_text (post (JObj number_single)) ready_world))
       = [error_record Single e].
Proof.
  apply (every_caught_500_is_logged Single (post (JObj number_single))
           ready_world eq_refl).
  vm_compute. reflexivity.
Defined.
